(** * The Navigation block's edit component

    A shallow embedding of
    [packages/block-library/src/navigation/edit.js]: the colour detector
    ([detectColors]) over a model of the rendered DOM, the store bindings of
    the composition wrapper ([withSelect], [withDispatch]) and the
    [Navigation] component itself, whose hooks are a record of local state
    and whose handlers are events on it. *)

From Stdlib Require Import ZArith.
From stdpp Require Import gmap strings list fin_maps.

Open Scope string_scope.

(** ** JavaScript values that the file handles *)

(** A string-valued slot that may hold [undefined]. *)
Abbreviation undefined := None (only parsing).

(** JavaScript truthiness of a possibly undefined string: [undefined] and
    the empty string are falsy. *)
Definition truthy (v : option string) : bool :=
  match v with
  | Some s => negb (String.eqb s "")
  | undefined => false
  end.

(** [a || b] on possibly undefined strings, with a defined right operand. *)
Definition orElse (a : option string) (b : string) : string :=
  match a with
  | Some s => if String.eqb s "" then b else s
  | undefined => b
  end.

(** [v === s] for a possibly undefined string and a string literal. *)
Definition strictEq (v : option string) (s : string) : bool :=
  match v with
  | Some x => String.eqb x s
  | undefined => false
  end.

(** ** The rendered DOM *)

Module Dom.

(** What [getComputedStyle] hands back, restricted to the two properties
    the file reads. *)
Record CSSStyleDeclaration : Type := mkStyle {
  color : string;
  backgroundColor : string;
}.

(** A node together with its chain of ancestors.  DOM ancestry is acyclic
    and finite, so a node carries its parent (if any) by value. *)
#[local] Unset Elimination Schemes.
Inductive Node : Type := mkNode {
  nodeType : Z;
  computedStyle : CSSStyleDeclaration;
  parentNode : option Node;
}.
#[local] Set Elimination Schemes.

(** Induction along the ancestor chain. *)
Fixpoint Node_chain_ind (P : Node -> Prop)
    (Hroot : forall t s, P (mkNode t s None))
    (Hchild : forall t s p, P p -> P (mkNode t s (Some p)))
    (n : Node) : P n :=
  match n with
  | mkNode t s None => Hroot t s
  | mkNode t s (Some p) => Hchild t s p (Node_chain_ind P Hroot Hchild p)
  end.

Definition ELEMENT_NODE : Z := 1.
Definition DOCUMENT_NODE : Z := 9.

(** The document, as far as [getElementById] sees it. *)
Abbreviation Document := (gmap string Node).

Definition getElementById (id : string) (doc : Document) : option Node :=
  doc !! id.

End Dom.

Import Dom.

(** ** Effects of the colour detector

    The detector reads the DOM and calls back into its caller.  Its run is
    the list of these effects, in order; [Callback] names the functions the
    caller passed in. *)

Section Detector.

Variable Callback : Type.

Inductive Effect : Type :=
| ReadComputedStyle (node : Node)
| Invoke (callback : Callback) (argument : string).

Definition M (A : Type) : Type := (A * list Effect)%type.

Definition ret {A} (a : A) : M A := (a, []).

Definition bind {A B} (m : M A) (k : A -> M B) : M B :=
  let '(a, t1) := m in
  let '(b, t2) := k a in
  (b, (t1 ++ t2)%list).

Definition invoke (callback : Callback) (argument : string) : M unit :=
  (tt, [Invoke callback argument]).

Local Notation "x <- m ;; k" := (bind m (fun x => k))
  (at level 100, m at next level, right associativity).
Local Notation "m ;;; k" := (bind m (fun _ => k))
  (at level 100, right associativity).

(** [getBlockDOMNode( clientId, doc )] *)
Definition getBlockDOMNode (clientId : string) (doc : Document) : option Node :=
  getElementById ("block-" ++ clientId) doc.

(** [getComputedStyle( node )]: the style comes from the node's own
    document view; the read is recorded. *)
Definition getComputedStyle (node : Node) : M CSSStyleDeclaration :=
  (computedStyle node, [ReadComputedStyle node]).

Definition TRANSPARENT : string := "rgba(0, 0, 0, 0)".

(** The [while] loop of [detectColors], entered with the current node and
    the background last read from it. *)
Fixpoint walkBackground (backgroundColorNode : Node) (backgroundColor : string)
  : M string :=
  match backgroundColorNode with
  | mkNode _ _ parent =>
      if String.eqb backgroundColor TRANSPARENT then
        match parent with
        | Some p =>
            if Z.eqb (nodeType p) ELEMENT_NODE then
              style <- getComputedStyle p ;;
              walkBackground p (Dom.backgroundColor style)
            else ret backgroundColor
        | None => ret backgroundColor
        end
      else ret backgroundColor
  end.

(** [detectColors( clientId, setColor, setBackground )], run against the
    global [document]. *)
Definition detectColors (document : Document) (clientId : string)
    (setColor setBackground : Callback) : M unit :=
  match getBlockDOMNode clientId document with
  | None => ret tt
  | Some colorsDetectionElement =>
      style <- getComputedStyle colorsDetectionElement ;;
      invoke setColor (Dom.color style) ;;;
      let backgroundColorNode := colorsDetectionElement in
      style <- getComputedStyle backgroundColorNode ;;
      backgroundColor <- walkBackground backgroundColorNode
                           (Dom.backgroundColor style) ;;
      invoke setBackground backgroundColor
  end.

(** The callback invocations of a run, in order. *)
Definition invocations (t : list Effect) : list (Callback * string) :=
  omap (fun e => match e with
                 | Invoke c v => Some (c, v)
                 | ReadComputedStyle _ => None
                 end) t.

(** The nodes whose computed style a run read, in order. *)
Definition styleReads (t : list Effect) : list Node :=
  omap (fun e => match e with
                 | ReadComputedStyle n => Some n
                 | Invoke _ _ => None
                 end) t.

(** What a run does to its caller, once the caller says what each
    callback does to its state: the invocations take place in order, and
    reading a style changes nothing. *)
Definition perform {S : Type} (apply : Callback -> string -> S -> S)
    (t : list Effect) (s : S) : S :=
  foldl (fun s call => apply (fst call) (snd call) s) s (invocations t).

End Detector.

Arguments ReadComputedStyle {Callback} node.
Arguments Invoke {Callback} callback argument.
Arguments ret {Callback A} a.
Arguments bind {Callback A B} m k.
Arguments invoke {Callback} callback argument.
Arguments getComputedStyle {Callback} node.
Arguments walkBackground {Callback} backgroundColorNode backgroundColor.
Arguments detectColors {Callback} document clientId setColor setBackground.
Arguments invocations {Callback} t.
Arguments styleReads {Callback} t.
Arguments perform {Callback S} apply t s.

Notation "x <- m ;; k" := (bind m (fun x => k))
  (at level 100, m at next level, right associativity).
Notation "m ;;; k" := (bind m (fun _ => k))
  (at level 100, right associativity).

(** ** The block editor, as this file consumes it *)

Module BlockEditor.

(** A block of the host's tree: its client id, its name and its inner
    blocks. *)
#[local] Unset Elimination Schemes.
Inductive Block : Type := mkBlock {
  clientId : string;
  name : string;
  innerBlocks : list Block;
}.
#[local] Set Elimination Schemes.

(** The argument handed to [updateInnerBlocks]: an array of blocks, or a
    nullish value. *)
Inductive JSBlocks : Type :=
| BlocksUndefined
| BlocksNull
| BlocksArray (blocks : list Block).

(** [blocks?.length] *)
Definition optLength (blocks : JSBlocks) : option nat :=
  match blocks with
  | BlocksArray l => Some (length l)
  | BlocksUndefined | BlocksNull => undefined
  end.

(** [v === 0] for the result of an optional chain. *)
Definition isZero (v : option nat) : bool :=
  match v with
  | Some n => Nat.eqb n 0
  | undefined => false
  end.

(** The selectors of the block-editor store that [withSelect] uses. *)
Record Selectors : Type := mkSelectors {
  getBlocks : string -> list Block;
  hasSelectedInnerBlock : string -> bool -> bool;
  getSelectedBlockClientId : option string;
  getClientIdsOfDescendants : list (option string) -> option (list string);
}.

(** The block attributes of the Navigation block. *)
Record Attributes : Type := mkAttributes {
  orientation : option string;
  itemsJustification : option string;
  showSubmenuIcon : bool;
  isResponsive : bool;
}.

(** The partial objects this file passes to [setAttributes]. *)
Inductive AttributesPatch : Type :=
| PatchItemsJustification (value : option string)
| PatchShowSubmenuIcon (value : bool)
| PatchIsResponsive (value : bool).

(** The four colour slots bound by [withColors]. *)
Inductive ColorSlotName : Type :=
| TextColor | BackgroundColor | OverlayBackgroundColor | OverlayTextColor.

Record ColorSlot : Type := mkColorSlot {
  color : option string;
  class : option string;
}.

(** Every call this file makes into the host: store actions, the
    attribute setter and the colour setters. *)
Inductive Action : Type :=
| ReplaceInnerBlocks (rootClientId : string) (blocks : JSBlocks)
    (updateSelection : bool)
| SelectBlock (clientId : string)
| SetAttributes (patch : AttributesPatch)
| SetColor (slot : ColorSlotName) (value : option string).

(** The host's state after it has processed the calls, for any host
    state and any way the host reacts to a call. *)
Definition settle {Store : Type} (reduce : Action -> Store -> Store)
    (calls : list Action) (store : Store) : Store :=
  foldl (fun s a => reduce a s) store calls.

End BlockEditor.

Import BlockEditor.

(** ** The composition wrapper *)

(** The props [withSelect] derives from the store. *)
Module Select.
Record Derived : Type := mkDerived {
  isImmediateParentOfSelectedBlock : bool;
  selectedBlockHasDescendants : bool;
  subMenuClientId : option string;
  hasExistingNavItems : bool;
}.
End Select.

(** [innerBlocks.find( ( b ) => b.innerBlocks.length )?.innerBlocks[ 0 ]?.clientId] *)
Definition subMenuClientId (innerBlocks : list Block) : option string :=
  b ← List.find (fun b => negb (Nat.eqb (length (BlockEditor.innerBlocks b)) 0))
        innerBlocks;
  first ← BlockEditor.innerBlocks b !! 0%nat;
  Some (BlockEditor.clientId first).

(** The function given to [withSelect]. *)
Definition withSelect (select : Selectors) (clientId : string) : Select.Derived :=
  let innerBlocks := getBlocks select clientId in
  let isImmediateParentOfSelectedBlock :=
    hasSelectedInnerBlock select clientId false in
  let selectedBlockId := getSelectedBlockClientId select in
  let selectedBlockHasDescendants :=
    match getClientIdsOfDescendants select [selectedBlockId] with
    | Some ids => negb (Nat.eqb (length ids) 0)
    | undefined => false
    end in
  {| Select.isImmediateParentOfSelectedBlock := isImmediateParentOfSelectedBlock;
     Select.selectedBlockHasDescendants := selectedBlockHasDescendants;
     Select.subMenuClientId := subMenuClientId innerBlocks;
     Select.hasExistingNavItems := negb (Nat.eqb (length innerBlocks) 0) |}.

(** The [updateInnerBlocks] that [withDispatch] binds: its return value
    ([false], or [undefined] when it falls off the end) and the calls it
    dispatched. *)
Definition updateInnerBlocks (clientId : string) (blocks : JSBlocks)
  : option bool * list Action :=
  if isZero (optLength blocks) then (Some false, [])
  else (undefined, [ReplaceInnerBlocks clientId blocks true]).

(** ** The [Navigation] component *)

Definition ALLOWED_BLOCKS : list string :=
  [ "core/navigation-link"; "core/search"; "core/social-links";
    "core/page-list"; "core/spacer"; "core/home-link" ].

(** The props of [Navigation].  The function-valued props ([setAttributes],
    [updateInnerBlocks] and the four colour setters) are the calls of
    [Action]. *)
Record Props : Type := mkProps {
  selectedBlockHasDescendants : bool;
  attributes : Attributes;
  clientId : string;
  hasExistingNavItems : bool;
  isImmediateParentOfSelectedBlock : bool;
  isSelected : bool;
  className : option string;
  backgroundColor : ColorSlot;
  textColor : ColorSlot;
  overlayBackgroundColor : ColorSlot;
  overlayTextColor : ColorSlot;
  subMenuClientId_ : option string; (* the prop [subMenuClientId] *)
  hasSubmenuIndicatorSetting : bool;
  hasItemJustificationControls : bool;
}.

(** What [compose] hands to [Navigation]: the block's own props, those
    derived by [withSelect] and the colour slots of [withColors]; the two
    feature flags default to [true]. *)
Definition composeProps (select : Selectors) (clientId : string)
    (attributes : Attributes) (isSelected : bool) (className : option string)
    (backgroundColor textColor overlayBackgroundColor overlayTextColor : ColorSlot)
  : Props :=
  let derived := withSelect select clientId in
  {| selectedBlockHasDescendants := Select.selectedBlockHasDescendants derived;
     attributes := attributes;
     clientId := clientId;
     hasExistingNavItems := Select.hasExistingNavItems derived;
     isImmediateParentOfSelectedBlock :=
       Select.isImmediateParentOfSelectedBlock derived;
     isSelected := isSelected;
     className := className;
     backgroundColor := backgroundColor;
     textColor := textColor;
     overlayBackgroundColor := overlayBackgroundColor;
     overlayTextColor := overlayTextColor;
     subMenuClientId_ := Select.subMenuClientId derived;
     hasSubmenuIndicatorSetting := true;
     hasItemJustificationControls := true |}.

(** The component's [useState] cells. *)
Record State : Type := mkState {
  isPlaceholderShown : bool;
  isResponsiveMenuOpen : bool;
  detectedBackgroundColor : option string;
  detectedColor : option string;
  detectedOverlayBackgroundColor : option string;
  detectedOverlayColor : option string;
}.

(** The state setters that the effect passes to [detectColors]. *)
Inductive StateSetter : Type :=
| SetDetectedColor
| SetDetectedBackgroundColor
| SetDetectedOverlayColor
| SetDetectedOverlayBackgroundColor.

Definition applySetter (setter : StateSetter) (v : string) (s : State) : State :=
  match setter with
  | SetDetectedColor =>
      {| isPlaceholderShown := isPlaceholderShown s;
         isResponsiveMenuOpen := isResponsiveMenuOpen s;
         detectedBackgroundColor := detectedBackgroundColor s;
         detectedColor := Some v;
         detectedOverlayBackgroundColor := detectedOverlayBackgroundColor s;
         detectedOverlayColor := detectedOverlayColor s |}
  | SetDetectedBackgroundColor =>
      {| isPlaceholderShown := isPlaceholderShown s;
         isResponsiveMenuOpen := isResponsiveMenuOpen s;
         detectedBackgroundColor := Some v;
         detectedColor := detectedColor s;
         detectedOverlayBackgroundColor := detectedOverlayBackgroundColor s;
         detectedOverlayColor := detectedOverlayColor s |}
  | SetDetectedOverlayColor =>
      {| isPlaceholderShown := isPlaceholderShown s;
         isResponsiveMenuOpen := isResponsiveMenuOpen s;
         detectedBackgroundColor := detectedBackgroundColor s;
         detectedColor := detectedColor s;
         detectedOverlayBackgroundColor := detectedOverlayBackgroundColor s;
         detectedOverlayColor := Some v |}
  | SetDetectedOverlayBackgroundColor =>
      {| isPlaceholderShown := isPlaceholderShown s;
         isResponsiveMenuOpen := isResponsiveMenuOpen s;
         detectedBackgroundColor := detectedBackgroundColor s;
         detectedColor := detectedColor s;
         detectedOverlayBackgroundColor := Some v;
         detectedOverlayColor := detectedOverlayColor s |}
  end.

Definition setIsPlaceholderShown (v : bool) (s : State) : State :=
  {| isPlaceholderShown := v;
     isResponsiveMenuOpen := isResponsiveMenuOpen s;
     detectedBackgroundColor := detectedBackgroundColor s;
     detectedColor := detectedColor s;
     detectedOverlayBackgroundColor := detectedOverlayBackgroundColor s;
     detectedOverlayColor := detectedOverlayColor s |}.

Definition setResponsiveMenuVisibility (v : bool) (s : State) : State :=
  {| isPlaceholderShown := isPlaceholderShown s;
     isResponsiveMenuOpen := v;
     detectedBackgroundColor := detectedBackgroundColor s;
     detectedColor := detectedColor s;
     detectedOverlayBackgroundColor := detectedOverlayBackgroundColor s;
     detectedOverlayColor := detectedOverlayColor s |}.

(** The initial values of the [useState] cells at mount. *)
Definition mount (props : Props) : State :=
  {| isPlaceholderShown := negb (hasExistingNavItems props);
     isResponsiveMenuOpen := false;
     detectedBackgroundColor := undefined;
     detectedColor := undefined;
     detectedOverlayBackgroundColor := undefined;
     detectedOverlayColor := undefined |}.

(** *** What a render pass produces *)

Record JustifyToolbarProps : Type := mkJustifyToolbar {
  value : option string;
  allowedControls : list string;
}.

Record ContrastCheckerProps : Type := mkContrastChecker {
  checkedBackgroundColor : option string;
  checkedTextColor : option string;
}.

Record ColorSetting : Type := mkColorSetting {
  settingValue : option string;
  settingOnChange : ColorSlotName;
  settingLabel : string;
}.

Record InnerBlocksSettings : Type := mkInnerBlocksSettings {
  allowedBlocks : list string;
  innerOrientation : string;
  renderAppender : bool;
  templateLock : bool;
}.

Record ResponsiveWrapperProps : Type := mkResponsiveWrapper {
  wrapperId : string;
  isOpen : bool;
  wrapperIsResponsive : bool;
}.

(** The element tree [Navigation] returns: the placeholder, or the toolbar,
    the inspector and the menu. *)
Inductive View : Type :=
| PlaceholderView
| MenuView
    (justifyToolbar : option JustifyToolbarProps)
    (displaySettings : option (bool * bool))
    (colorSettings : list ColorSetting)
    (contrastCheckers : list ContrastCheckerProps)
    (wrapper : ResponsiveWrapperProps)
    (innerBlocksSettings : InnerBlocksSettings).

(** [attributes.orientation === 'vertical' ? ... : ...] *)
Definition justifyAllowedControls (attributes : Attributes) : list string :=
  if strictEq (orientation attributes) "vertical"
  then [ "left"; "center"; "right" ]
  else [ "left"; "center"; "right"; "space-between" ].

Section Component.

(** [Platform.OS] *)
Variable OS : string.

(** Turn on contrast checker for web only. *)
Definition enableContrastChecking : bool := String.eqb OS "web".

(** The body of the [useEffect] callback, which runs after every render. *)
Definition effect (props : Props) (document : Document) : M StateSetter unit :=
  if negb enableContrastChecking then ret tt
  else
    detectColors document (clientId props)
      SetDetectedColor SetDetectedBackgroundColor ;;;
    match subMenuClientId_ props with
    | Some subMenuClientId =>
        if truthy (Some subMenuClientId) then
          detectColors document subMenuClientId
            SetDetectedOverlayColor SetDetectedOverlayBackgroundColor
        else ret tt
    | undefined => ret tt
    end.

(** The state after the effect's callback invocations took place. *)
Definition runEffect (props : Props) (document : Document) (s : State) : State :=
  perform applySetter (snd (effect props document)) s.

(** The render function proper. *)
Definition Navigation (props : Props) (s : State) : View :=
  let innerBlocksProps :=
    {| allowedBlocks := ALLOWED_BLOCKS;
       innerOrientation := orElse (orientation (attributes props)) "horizontal";
       renderAppender :=
         (isImmediateParentOfSelectedBlock props
            && negb (selectedBlockHasDescendants props))
         || isSelected props;
       templateLock := false |} in
  if isPlaceholderShown s then PlaceholderView
  else
    MenuView
      (if hasItemJustificationControls props then
         Some {| value := itemsJustification (attributes props);
                 allowedControls := justifyAllowedControls (attributes props) |}
       else None)
      (if hasSubmenuIndicatorSetting props then
         Some (showSubmenuIcon (attributes props),
               isResponsive (attributes props))
       else None)
      [ {| settingValue := color (textColor props);
           settingOnChange := TextColor;
           settingLabel := "Text" |};
        {| settingValue := color (backgroundColor props);
           settingOnChange := BackgroundColor;
           settingLabel := "Background" |};
        {| settingValue := color (overlayTextColor props);
           settingOnChange := OverlayTextColor;
           settingLabel := "Overlay text" |};
        {| settingValue := color (overlayBackgroundColor props);
           settingOnChange := OverlayBackgroundColor;
           settingLabel := "Overlay background" |} ]
      (if enableContrastChecking then
         [ {| checkedBackgroundColor := detectedBackgroundColor s;
              checkedTextColor := detectedColor s |};
           {| checkedBackgroundColor := detectedOverlayBackgroundColor s;
              checkedTextColor := detectedOverlayColor s |} ]
       else [])
      {| wrapperId := clientId props;
         isOpen := isResponsiveMenuOpen s;
         wrapperIsResponsive := isResponsive (attributes props) |}
      innerBlocksProps.

(** *** Handlers *)

(** The [onCreate] handler given to [NavigationPlaceholder]. *)
Definition onCreate (props : Props) (blocks : JSBlocks)
    (selectNavigationBlock : bool) (s : State) : State * list Action :=
  let s := setIsPlaceholderShown false s in
  let '(_, calls) := updateInnerBlocks (clientId props) blocks in
  if selectNavigationBlock
  then (s, (calls ++ [SelectBlock (clientId props)])%list)
  else (s, calls).

(** What can happen to a mounted component: the host renders it again
    with new props, the effect of the last render runs against the DOM
    of that moment, or one of the handlers it rendered is called. *)
Inductive Event : Type :=
| Rerender (props : Props)
| RunEffect (document : Document)
| OnCreate (blocks : JSBlocks) (selectNavigationBlock : bool)
| JustifyChange (value : option string)
| ToggleSubmenuIcon (value : bool)
| ToggleResponsive (value : bool)
| ColorChange (slot : ColorSlotName) (value : option string)
| ResponsiveToggle (value : bool).

(** A mounted component: the props of its last render, its state and the
    calls it has made into the host so far. *)
Record World : Type := mkWorld {
  props : Props;
  state : State;
  dispatched : list Action;
}.

Definition mounted (p : Props) : World :=
  {| props := p; state := mount p; dispatched := [] |}.

(** Whether the last render put the event's handler on the page. *)
Definition rendered (w : World) (e : Event) : bool :=
  match e, Navigation (props w) (state w) with
  | Rerender _, _ => true
  | RunEffect _, _ => true
  | OnCreate _ _, PlaceholderView => true
  | JustifyChange _, MenuView (Some _) _ _ _ _ _ => true
  | ToggleSubmenuIcon _, MenuView _ (Some _) _ _ _ _ => true
  | ToggleResponsive _, MenuView _ (Some _) _ _ _ _ => true
  | ColorChange _ _, MenuView _ _ _ _ _ _ => true
  | ResponsiveToggle _, MenuView _ _ _ _ _ _ => true
  | _, _ => false
  end.

(** The handler of an event, whatever the view. *)
Definition handle (e : Event) (w : World) : World :=
  match e with
  | Rerender p =>
      {| props := p; state := state w; dispatched := dispatched w |}
  | RunEffect document =>
      {| props := props w;
         state := runEffect (props w) document (state w);
         dispatched := dispatched w |}
  | OnCreate blocks selectNavigationBlock =>
      let '(s, calls) :=
        onCreate (props w) blocks selectNavigationBlock (state w) in
      {| props := props w; state := s;
         dispatched := (dispatched w ++ calls)%list |}
  | JustifyChange v =>
      {| props := props w; state := state w;
         dispatched :=
           (dispatched w ++ [SetAttributes (PatchItemsJustification v)])%list |}
  | ToggleSubmenuIcon v =>
      {| props := props w; state := state w;
         dispatched :=
           (dispatched w ++ [SetAttributes (PatchShowSubmenuIcon v)])%list |}
  | ToggleResponsive v =>
      {| props := props w; state := state w;
         dispatched :=
           (dispatched w ++ [SetAttributes (PatchIsResponsive v)])%list |}
  | ColorChange slot v =>
      {| props := props w; state := state w;
         dispatched := (dispatched w ++ [SetColor slot v])%list |}
  | ResponsiveToggle v =>
      {| props := props w;
         state := setResponsiveMenuVisibility v (state w);
         dispatched := dispatched w |}
  end.

(** One event on a component whose every state change is rendered before
    the next event arrives: the handler runs when the render of the
    current state put it on the page, and [None] stands for an event that
    cannot arrive then.  Handlers themselves have no such guard; [handle]
    is what a call does in any case. *)
Definition fire (e : Event) (w : World) : option World :=
  if rendered w e then Some (handle e w) else None.

(** A sequence of events, oldest first. *)
Fixpoint run (es : list Event) (w : World) : option World :=
  match es with
  | [] => Some w
  | e :: es' =>
      match fire e w with
      | Some w' => run es' w'
      | None => None
      end
  end.

End Component.

(** ** Vocabulary of the properties *)

(** The test of the detector's loop: the node's computed background is the
    string [rgba(0, 0, 0, 0)].  Any other value, a zero-alpha colour
    serialised otherwise included, does not pass it. *)
Definition transparent (node : Node) : Prop :=
  Dom.backgroundColor (computedStyle node) = TRANSPARENT.

(** The element ancestors of a node, nearest first: the chain of parents,
    as long as there is a parent and it is an element. *)
Fixpoint elementAncestors (node : Node) : list Node :=
  match node with
  | mkNode _ _ (Some p) =>
      if Z.eqb (nodeType p) ELEMENT_NODE then p :: elementAncestors p else []
  | mkNode _ _ None => []
  end.

(** The ancestors the loop moves to, when entered at [node] with
    [background] in hand. *)
Fixpoint walked (node : Node) (background : string) : list Node :=
  match node with
  | mkNode _ _ parent =>
      if String.eqb background TRANSPARENT then
        match parent with
        | Some p =>
            if Z.eqb (nodeType p) ELEMENT_NODE
            then p :: walked p (Dom.backgroundColor (computedStyle p))
            else []
        | None => []
        end
      else []
  end.

(** The background of the last node of a path that starts at [node]. *)
Definition lastBackground (node : Node) (ancestors : list Node) : string :=
  Dom.backgroundColor (computedStyle (default node (last ancestors))).

(** The views' parts that the properties speak of. *)
Definition justifyToolbarOf (v : View) : option JustifyToolbarProps :=
  match v with
  | PlaceholderView => None
  | MenuView toolbar _ _ _ _ _ => toolbar
  end.

Definition contrastCheckersOf (v : View) : list ContrastCheckerProps :=
  match v with
  | PlaceholderView => []
  | MenuView _ _ _ checkers _ _ => checkers
  end.

(** Whether an event is a call of the [onCreate] handler. *)
Definition isCreation (e : Event) : bool :=
  match e with
  | OnCreate _ _ => true
  | _ => false
  end.

(** Whether an event is a call of the [onCreate] handler that supplies
    child content, that is, at least one block. *)
Definition suppliesContent (e : Event) : bool :=
  match e with
  | OnCreate (BlocksArray (_ :: _)) _ => true
  | _ => false
  end.

(** Whether a node's computed background differs from [rgba(0, 0, 0, 0)]. *)
Definition opaque (node : Node) : bool :=
  negb (String.eqb (Dom.backgroundColor (computedStyle node)) TRANSPARENT).

(** The background of the nearest node, among [node] and its element
    ancestors, whose background is not the string [rgba(0, 0, 0, 0)]; that
    string when there is none. *)
Definition nearestBackground (node : Node) : string :=
  match List.find opaque (node :: elementAncestors node) with
  | Some n => Dom.backgroundColor (computedStyle n)
  | None => TRANSPARENT
  end.

Definition colorSettingsOf (v : View) : list ColorSetting :=
  match v with
  | PlaceholderView => []
  | MenuView _ _ settings _ _ _ => settings
  end.

Definition innerBlocksSettingsOf (v : View) : option InnerBlocksSettings :=
  match v with
  | PlaceholderView => None
  | MenuView _ _ _ _ _ settings => Some settings
  end.

(** The colour slot of the props that a slot name stands for. *)
Definition slotOf (props : Props) (slot : ColorSlotName) : ColorSlot :=
  match slot with
  | TextColor => textColor props
  | BackgroundColor => backgroundColor props
  | OverlayBackgroundColor => overlayBackgroundColor props
  | OverlayTextColor => overlayTextColor props
  end.

(** Whether a call into the host is [replaceInnerBlocks]. *)
Definition isReplace (a : Action) : bool :=
  match a with
  | ReplaceInnerBlocks _ _ _ => true
  | _ => false
  end.

(** A [replaceInnerBlocks] call that passes something other than the empty
    list and asks for the selection to be updated; any other call. *)
Definition wellFormedCall (a : Action) : Prop :=
  match a with
  | ReplaceInnerBlocks _ blocks updateSelection =>
      blocks ≠ BlocksArray [] ∧ updateSelection = true
  | _ => True
  end.

(** The events of the toolbar and the inspector that go to the attribute
    setter or to a colour setter. *)
Definition isSetting (e : Event) : bool :=
  match e with
  | JustifyChange _ | ToggleSubmenuIcon _ | ToggleResponsive _
  | ColorChange _ _ => true
  | _ => false
  end.

(** Full transparency in the spec's sense, for computed colours, which
    serialise as [rgb(r, g, b)] or [rgba(r, g, b, a)]: the alpha channel
    is zero. *)
Definition fullyTransparent (background : string) : bool :=
  String.prefix "rgba(" background
  && String.eqb
       (String.substring (String.length background - 4) 4 background) ", 0)".

(** Handlers called one after the other, whatever view was last rendered:
    a handler can be called again before the next render replaces it. *)
Definition handleAll (OS : string) (es : list Event) (w : World) : World :=
  foldl (fun w e => handle OS e w) w es.

(** Whether an event is a call of [onCreate] with an argument that passes
    the guard of [updateInnerBlocks]. *)
Definition passesGuard (e : Event) : bool :=
  match e with
  | OnCreate blocks _ => negb (isZero (optLength blocks))
  | _ => false
  end.

(** The caller's state after one detection pass, in terms of what is on the
    page: the two cells are set when the block's node is found, and nothing
    changes when it is not. *)
Definition detected (document : Document) (clientId : string)
    (setColor setBackground : StateSetter) (s : State) : State :=
  match getBlockDOMNode clientId document with
  | Some node =>
      applySetter setBackground (nearestBackground node)
        (applySetter setColor (Dom.color (computedStyle node)) s)
  | None => s
  end.

(** *** Sample data *)

Module Sample.

Definition documentNode : Node :=
  mkNode DOCUMENT_NODE (mkStyle "" "") None.

Definition html : Node :=
  mkNode ELEMENT_NODE (mkStyle "rgb(0, 0, 0)" TRANSPARENT) (Some documentNode).

Definition body : Node :=
  mkNode ELEMENT_NODE (mkStyle "rgb(0, 0, 0)" "rgb(255, 255, 255)") (Some html).

Definition editor : Node :=
  mkNode ELEMENT_NODE (mkStyle "rgb(0, 0, 0)" TRANSPARENT) (Some body).

(** The block's own node: coloured text on a transparent background. *)
Definition navNode : Node :=
  mkNode ELEMENT_NODE (mkStyle "rgb(10, 20, 30)" TRANSPARENT) (Some editor).

(** A submenu node with a background of its own. *)
Definition subNode : Node :=
  mkNode ELEMENT_NODE (mkStyle "rgb(1, 2, 3)" "rgb(200, 200, 200)") (Some navNode).

Definition page : Document :=
  <[ "block-sub-1" := subNode ]> {[ "block-nav-1" := navNode ]}.

(** A menu of three links, the second of which has a submenu. *)
Definition link (id : string) (children : list Block) : Block :=
  mkBlock id "core/navigation-link" children.

Definition menu : list Block :=
  [ link "home" [];
    link "about" [ link "sub-1" []; link "sub-2" [] ];
    link "shop" [ link "sub-3" [] ] ].

(** A store in which the block ["nav-1"] holds [blocks] and nothing is
    selected. *)
Definition storeWith (blocks : list Block) : Selectors :=
  {| getBlocks := fun id => if String.eqb id "nav-1" then blocks else [];
     hasSelectedInnerBlock := fun _ _ => false;
     getSelectedBlockClientId := None;
     getClientIdsOfDescendants := fun _ => Some [] |}.

Definition noColor : ColorSlot := mkColorSlot None None.

Definition propsWith (blocks : list Block) (attributes : Attributes) : Props :=
  composeProps (storeWith blocks) "nav-1" attributes true None
    noColor noColor noColor noColor.

Definition horizontal : Attributes := mkAttributes None None true false.

Definition verticalCentered : Attributes :=
  mkAttributes (Some "vertical") (Some "center") true false.

(** A freshly inserted Navigation block, and one that already has items. *)
Definition freshProps : Props := propsWith [] horizontal.
Definition menuProps : Props := propsWith menu verticalCentered.

(** A block whose background is white with alpha zero, in the white body. *)
Definition veiled : Node :=
  mkNode ELEMENT_NODE (mkStyle "rgb(0, 0, 0)" "rgba(255, 255, 255, 0)")
    (Some body).

Definition veiledPage : Document := {[ "block-nav-1" := veiled ]}.

(** A page whose root element carries the block's id; its parent is the
    document. *)
Definition rootPage : Document := {[ "block-root" := html ]}.

(** An editing session on a block that has items. *)
Definition session : list Event :=
  [ RunEffect page; JustifyChange (Some "right"); ResponsiveToggle true;
    Rerender freshProps; ColorChange TextColor (Some "#fff") ].

End Sample.

(** ** The colour detector *)

Section DetectorFacts.

Context {Callback : Type}.
Implicit Types (node : Node) (document : Document).

Lemma walkBackground_trace node background :
  snd (walkBackground (Callback := Callback) node background)
  = map ReadComputedStyle (walked node background).
Proof.
  revert background. induction node as [t s | t s p IH] using Node_chain_ind;
    intros background; simpl.
  - by destruct (String.eqb background TRANSPARENT).
  - destruct (String.eqb background TRANSPARENT); [|done].
    destruct (Z.eqb (nodeType p) ELEMENT_NODE); [|done].
    unfold bind, getComputedStyle.
    specialize (IH (Dom.backgroundColor (computedStyle p))).
    destruct (walkBackground p _) as [b t2]. simpl in *. by rewrite IH.
Qed.

Lemma walkBackground_value node background :
  fst (walkBackground (Callback := Callback) node background)
  = default background
      ((fun n => Dom.backgroundColor (computedStyle n))
         <$> last (walked node background)).
Proof.
  revert background. induction node as [t s | t s p IH] using Node_chain_ind;
    intros background; simpl.
  - by destruct (String.eqb background TRANSPARENT).
  - destruct (String.eqb background TRANSPARENT); [|done].
    destruct (Z.eqb (nodeType p) ELEMENT_NODE); [|done].
    unfold bind, getComputedStyle.
    specialize (IH (Dom.backgroundColor (computedStyle p))).
    destruct (walkBackground p _) as [b t2]. simpl in *. rewrite IH.
    rewrite last_cons. by destruct (last (walked p _)).
Qed.

Lemma walked_prefix node background :
  walked node background `prefix_of` elementAncestors node.
Proof.
  revert background. induction node as [t s | t s p IH] using Node_chain_ind;
    intros background; simpl.
  - by destruct (String.eqb background TRANSPARENT).
  - destruct (String.eqb background TRANSPARENT); [|apply prefix_nil].
    destruct (Z.eqb (nodeType p) ELEMENT_NODE); [|done].
    apply prefix_cons, IH.
Qed.

Lemma walked_nonempty node background :
  walked node background ≠ [] → background = TRANSPARENT.
Proof.
  destruct node as [t s parent]. simpl.
  destruct (String.eqb_spec background TRANSPARENT); done.
Qed.

Lemma walked_transparent node background i x :
  walked node background !! i = Some x →
  S i < length (walked node background) →
  transparent x.
Proof.
  revert background i.
  induction node as [t s | t s p IH] using Node_chain_ind;
    intros background i; simpl.
  - by destruct (String.eqb background TRANSPARENT).
  - destruct (String.eqb background TRANSPARENT); [|done].
    destruct (Z.eqb (nodeType p) ELEMENT_NODE); [|done].
    destruct i as [|i]; simpl; intros Hx Hlen.
    + injection Hx as <-. apply walked_nonempty with (node := p).
      intros Hnil. rewrite Hnil in Hlen. simpl in Hlen. lia.
    + eapply IH; [exact Hx | lia].
Qed.

Lemma walked_stops node background :
  default background
    ((fun n => Dom.backgroundColor (computedStyle n))
       <$> last (walked node background)) ≠ TRANSPARENT
  ∨ walked node background = elementAncestors node.
Proof.
  revert background. induction node as [t s | t s p IH] using Node_chain_ind;
    intros background; simpl.
  - destruct (String.eqb_spec background TRANSPARENT); [by right | by left].
  - destruct (String.eqb_spec background TRANSPARENT); [|by left].
    destruct (Z.eqb (nodeType p) ELEMENT_NODE); [|by right].
    destruct (IH (Dom.backgroundColor (computedStyle p))) as [Hne | Heq].
    + left. rewrite last_cons. by destruct (last (walked p _)).
    + right. by rewrite Heq.
Qed.

End DetectorFacts.

(** The whole run of the detector on a node that is on the page. *)
Lemma detectColors_present {Callback : Type} (document : Document)
    (clientId : string) (setColor setBackground : Callback) (node : Node) :
  getBlockDOMNode clientId document = Some node →
  detectColors document clientId setColor setBackground
  = (tt,
     [ReadComputedStyle node;
      Invoke setColor (Dom.color (computedStyle node));
      ReadComputedStyle node]
     ++ map ReadComputedStyle
          (walked node (Dom.backgroundColor (computedStyle node)))
     ++ [Invoke setBackground
           (lastBackground node
              (walked node (Dom.backgroundColor (computedStyle node))))])%list.
Proof.
  intros Hnode. unfold detectColors. rewrite Hnode.
  unfold bind, getComputedStyle, invoke.
  pose proof (walkBackground_trace (Callback := Callback) node
                (Dom.backgroundColor (computedStyle node))) as Htrace.
  pose proof (walkBackground_value (Callback := Callback) node
                (Dom.backgroundColor (computedStyle node))) as Hvalue.
  destruct (walkBackground node _) as [b t]. simpl in *. subst b t.
  unfold lastBackground. f_equal. f_equal. f_equal. f_equal. f_equal. f_equal.
  by destruct (last (walked node _)).
Qed.

Lemma styleReads_app {Callback : Type} (t1 t2 : list (Effect Callback)) :
  styleReads (t1 ++ t2) = (styleReads t1 ++ styleReads t2)%list.
Proof. apply omap_app. Qed.

Lemma invocations_app {Callback : Type} (t1 t2 : list (Effect Callback)) :
  invocations (t1 ++ t2) = (invocations t1 ++ invocations t2)%list.
Proof. apply omap_app. Qed.

Lemma styleReads_reads {Callback : Type} (nodes : list Node) :
  styleReads (map (ReadComputedStyle (Callback := Callback)) nodes) = nodes.
Proof. induction nodes as [|n nodes IH]; simpl; [done | by f_equal]. Qed.

Lemma invocations_reads {Callback : Type} (nodes : list Node) :
  invocations (map (ReadComputedStyle (Callback := Callback)) nodes) = [].
Proof. induction nodes as [|n nodes IH]; simpl; done. Qed.

Lemma detectColors_styleReads {Callback : Type} (document : Document)
    (clientId : string) (setColor setBackground : Callback) (node : Node) :
  getBlockDOMNode clientId document = Some node →
  styleReads (snd (detectColors document clientId setColor setBackground))
  = ([node; node]
     ++ walked node (Dom.backgroundColor (computedStyle node)))%list.
Proof.
  intros Hnode. rewrite (detectColors_present _ _ _ _ _ Hnode). cbn [snd].
  rewrite !styleReads_app, styleReads_reads. simpl. by rewrite app_nil_r.
Qed.

Lemma detectColors_invocations {Callback : Type} (document : Document)
    (clientId : string) (setColor setBackground : Callback) (node : Node) :
  getBlockDOMNode clientId document = Some node →
  invocations (snd (detectColors document clientId setColor setBackground))
  = [ (setColor, Dom.color (computedStyle node));
      (setBackground,
       lastBackground node
         (walked node (Dom.backgroundColor (computedStyle node)))) ].
Proof.
  intros Hnode. rewrite (detectColors_present _ _ _ _ _ Hnode). cbn [snd].
  by rewrite !invocations_app, invocations_reads.
Qed.

(** The block's node is transparent, and so is the editor around it; the
    body is white. *)
Example detectColors_nav :
  detectColors Sample.page "nav-1" SetDetectedColor SetDetectedBackgroundColor
  = (tt,
     [ ReadComputedStyle Sample.navNode;
       Invoke SetDetectedColor "rgb(10, 20, 30)";
       ReadComputedStyle Sample.navNode;
       ReadComputedStyle Sample.editor;
       ReadComputedStyle Sample.body;
       Invoke SetDetectedBackgroundColor "rgb(255, 255, 255)" ]).
Proof. reflexivity. Qed.

(** The submenu has a background of its own. *)
Example detectColors_sub :
  detectColors Sample.page "sub-1"
    SetDetectedOverlayColor SetDetectedOverlayBackgroundColor
  = (tt,
     [ ReadComputedStyle Sample.subNode;
       Invoke SetDetectedOverlayColor "rgb(1, 2, 3)";
       ReadComputedStyle Sample.subNode;
       Invoke SetDetectedOverlayBackgroundColor "rgb(200, 200, 200)" ]).
Proof. reflexivity. Qed.

(** The walk stops below the document node, which is no element, and the
    transparent value read last is what is reported. *)
Example walkBackground_to_the_root :
  walkBackground (Callback := StateSetter) Sample.html TRANSPARENT
  = (TRANSPARENT, [])
  ∧ elementAncestors Sample.navNode
    = [ Sample.editor; Sample.body; Sample.html ].
Proof. split; reflexivity. Qed.

(** C8. When no DOM node is found for the client id, [detectColors] is a
    no-op: its run is empty, so it reads no style and invokes neither
    callback, and whatever the callbacks would do to the caller's state,
    that state is left as it was. *)
Theorem detectColors_missing_node {Callback : Type} (document : Document)
    (clientId : string) (setColor setBackground : Callback) :
  getBlockDOMNode clientId document = None →
  detectColors document clientId setColor setBackground = (tt, [])
  ∧ invocations (snd (detectColors document clientId setColor setBackground)) = []
  ∧ ∀ (S : Type) (apply : Callback → string → S → S) (s : S),
      perform apply
        (snd (detectColors document clientId setColor setBackground)) s = s.
Proof.
  intros Hnone. unfold detectColors. rewrite Hnone. by repeat split.
Qed.

Lemma detectColors_missing_node_witness :
  getBlockDOMNode "gone" Sample.page = None
  ∧ detectColors Sample.page "gone" SetDetectedColor SetDetectedBackgroundColor
    = (tt, []).
Proof.
  split; [reflexivity |].
  apply (detectColors_missing_node Sample.page "gone"
           SetDetectedColor SetDetectedBackgroundColor).
  reflexivity.
Defined.

(** C9. On a node that is on the page, the callbacks [detectColors] invokes
    are exactly two: first the text-colour callback, once, with the node's
    computed colour, then the background callback, once, with the
    background the walk ended on.  Everything else in the run is a style
    read, so for any caller state and any meaning of the callbacks, the
    state after the run is the one those two calls produce. *)
Theorem detectColors_effects {Callback : Type} (document : Document)
    (clientId : string) (setColor setBackground : Callback) (node : Node) :
  getBlockDOMNode clientId document = Some node →
  let run := snd (detectColors document clientId setColor setBackground) in
  let background :=
    lastBackground node
      (walked node (Dom.backgroundColor (computedStyle node))) in
  invocations run
  = [ (setColor, Dom.color (computedStyle node)); (setBackground, background) ]
  ∧ ∀ (S : Type) (apply : Callback → string → S → S) (s : S),
      perform apply run s
      = apply setBackground background
          (apply setColor (Dom.color (computedStyle node)) s).
Proof.
  intros Hnode run background.
  assert (Hcalls := detectColors_invocations document clientId
                      setColor setBackground node Hnode).
  split; [exact Hcalls |].
  intros S apply s. unfold perform, run. by rewrite Hcalls.
Qed.

Lemma detectColors_effects_witness :
  getBlockDOMNode "nav-1" Sample.page = Some Sample.navNode
  ∧ invocations
      (snd (detectColors Sample.page "nav-1"
              SetDetectedColor SetDetectedBackgroundColor))
    = [ (SetDetectedColor, "rgb(10, 20, 30)");
        (SetDetectedBackgroundColor, "rgb(255, 255, 255)") ].
Proof.
  split; [reflexivity |].
  apply (detectColors_effects Sample.page "nav-1"
           SetDetectedColor SetDetectedBackgroundColor Sample.navNode).
  reflexivity.
Defined.

(** The detector on a block whose background has alpha zero but is not
    black: nothing above it is read, and that background is reported. *)
Example detectColors_veiled :
  detectColors Sample.veiledPage "nav-1"
    SetDetectedColor SetDetectedBackgroundColor
  = (tt,
     [ ReadComputedStyle Sample.veiled;
       Invoke SetDetectedColor "rgb(0, 0, 0)";
       ReadComputedStyle Sample.veiled;
       Invoke SetDetectedBackgroundColor "rgba(255, 255, 255, 0)" ])
  ∧ fullyTransparent "rgba(255, 255, 255, 0)" = true
  ∧ fullyTransparent "rgba(0, 0, 0, 0)" = true
  ∧ fullyTransparent "rgb(255, 255, 255)" = false
  ∧ fullyTransparent "rgba(0, 0, 0, 0.5)" = false
  ∧ elementAncestors Sample.veiled = [ Sample.body; Sample.html ].
Proof. repeat split. Qed.

(** C3, as the claim has it, with full transparency meaning alpha zero: a
    background that is not fully transparent is reported without reading
    an ancestor, and from a fully transparent one the detector walks up
    until it has read a background that is not fully transparent or has
    run out of element ancestors.  A block with the background
    [rgba(255, 255, 255, 0)] is fully transparent, yet the detector reads
    no ancestor and reports that value, though the body above is white. *)
Lemma detectColors_fully_transparent_fails :
  ¬ (∀ (document : Document) (clientId : string)
       (setColor setBackground : StateSetter) (node : Node),
       getBlockDOMNode clientId document = Some node →
       let run := snd (detectColors document clientId setColor setBackground) in
       (fullyTransparent (Dom.backgroundColor (computedStyle node)) = false →
          styleReads run = [node; node]
          ∧ invocations run
            = [ (setColor, Dom.color (computedStyle node));
                (setBackground, Dom.backgroundColor (computedStyle node)) ])
       ∧ (fullyTransparent (Dom.backgroundColor (computedStyle node)) = true →
          ∃ ancestors : list Node,
            styleReads run = ([node; node] ++ ancestors)%list
            ∧ ancestors `prefix_of` elementAncestors node
            ∧ (fullyTransparent (lastBackground node ancestors) = false
               ∨ ancestors = elementAncestors node)
            ∧ invocations run
              = [ (setColor, Dom.color (computedStyle node));
                  (setBackground, lastBackground node ancestors) ])).
Proof.
  intros Hclaim.
  destruct (Hclaim Sample.veiledPage "nav-1"
              SetDetectedColor SetDetectedBackgroundColor Sample.veiled
              eq_refl) as [_ Hwalk].
  destruct (Hwalk eq_refl) as (ancestors & Hreads & _ & Hstop & _).
  assert (Hrun : styleReads
                   (snd (detectColors Sample.veiledPage "nav-1"
                           SetDetectedColor SetDetectedBackgroundColor))
                 = ([Sample.veiled; Sample.veiled] ++ [])%list)
    by reflexivity.
  rewrite Hrun in Hreads. apply app_inv_head in Hreads. subst ancestors.
  destruct Hstop as [Hopaque | Hall]; discriminate.
Qed.

(** C3, amended. For the node the detector starts from: when its computed
    background is anything but the string [rgba(0, 0, 0, 0)], a zero-alpha
    colour serialised otherwise included, the only styles read are the
    node's own and that background is reported; when it is
    [rgba(0, 0, 0, 0)], the detector reads, after the node, a run of its
    element ancestors, nearest first, every node before the last one read
    having the background [rgba(0, 0, 0, 0)], and the last one read either
    having another background or being the last element ancestor there is;
    the background of the last node read is the one reported. *)
Theorem detectColors_background_walk {Callback : Type} (document : Document)
    (clientId : string) (setColor setBackground : Callback) (node : Node) :
  getBlockDOMNode clientId document = Some node →
  let run := snd (detectColors document clientId setColor setBackground) in
  (¬ transparent node →
     styleReads run = [node; node]
     ∧ invocations run
       = [ (setColor, Dom.color (computedStyle node));
           (setBackground, Dom.backgroundColor (computedStyle node)) ])
  ∧ (transparent node →
     ∃ ancestors : list Node,
       styleReads run = ([node; node] ++ ancestors)%list
       ∧ ancestors `prefix_of` elementAncestors node
       ∧ (∀ i x, (node :: ancestors) !! i = Some x →
                 S i < length (node :: ancestors) → transparent x)
       ∧ (¬ transparent (default node (last ancestors))
          ∨ ancestors = elementAncestors node)
       ∧ invocations run
         = [ (setColor, Dom.color (computedStyle node));
             (setBackground, lastBackground node ancestors) ]).
Proof.
  intros Hnode run. unfold run.
  rewrite (detectColors_styleReads _ _ _ _ _ Hnode).
  rewrite (detectColors_invocations _ _ _ _ _ Hnode).
  set (bg := Dom.backgroundColor (computedStyle node)).
  split.
  - intros Hopaque.
    assert (Hnil : walked node bg = []).
    { destruct (walked node bg) as [|x l] eqn:Hw; [done |].
      exfalso. apply Hopaque. apply (walked_nonempty node bg). by rewrite Hw. }
    rewrite Hnil. by split.
  - intros Htransparent. exists (walked node bg).
    split; [done |]. split; [apply walked_prefix |]. split; [| split; [| done]].
    + intros [|i] x; simpl; intros Hx Hlen.
      * by injection Hx as <-.
      * eapply walked_transparent; [exact Hx | lia].
    + destruct (walked_stops node bg) as [Hne | Heq]; [| by right].
      left. unfold transparent. intros Heq. apply Hne.
      destruct (last (walked node bg)); simpl in *; [done | exact Htransparent].
Qed.

Lemma detectColors_background_walk_witness :
  getBlockDOMNode "nav-1" Sample.page = Some Sample.navNode
  ∧ transparent Sample.navNode
  ∧ (∃ ancestors : list Node,
       styleReads
         (snd (detectColors Sample.page "nav-1"
                 SetDetectedColor SetDetectedBackgroundColor))
       = ([Sample.navNode; Sample.navNode] ++ ancestors)%list
       ∧ ancestors `prefix_of` elementAncestors Sample.navNode
       ∧ (∀ i x, (Sample.navNode :: ancestors) !! i = Some x →
                 S i < length (Sample.navNode :: ancestors) → transparent x)
       ∧ (¬ transparent (default Sample.navNode (last ancestors))
          ∨ ancestors = elementAncestors Sample.navNode)
       ∧ invocations
           (snd (detectColors Sample.page "nav-1"
                   SetDetectedColor SetDetectedBackgroundColor))
         = [ (SetDetectedColor, Dom.color (computedStyle Sample.navNode));
             (SetDetectedBackgroundColor,
              lastBackground Sample.navNode ancestors) ]).
Proof.
  split; [reflexivity |]. split; [reflexivity |].
  apply (detectColors_background_walk Sample.page "nav-1"
           SetDetectedColor SetDetectedBackgroundColor Sample.navNode);
    reflexivity.
Defined.

(** ** The composition wrapper *)

(** C1. Called with an empty list, [updateInnerBlocks] returns [false] and
    dispatches nothing; so whatever the host's state and however it reacts
    to calls, the state, and with it the block's children, is what it was. *)
Theorem updateInnerBlocks_empty (clientId : string) :
  updateInnerBlocks clientId (BlocksArray []) = (Some false, [])
  ∧ ∀ (Store : Type) (reduce : Action → Store → Store) (store : Store),
      settle reduce (snd (updateInnerBlocks clientId (BlocksArray []))) store
      = store.
Proof. split; [reflexivity | intros Store reduce store; reflexivity]. Qed.

(** C10. The guard of [updateInnerBlocks] rejects only a list of length
    zero.  For [undefined] and for [null] the test [blocks?.length === 0]
    is false, the call returns [undefined] rather than [false], and it
    dispatches [replaceInnerBlocks] with that nullish value; [false] is
    returned for the empty list and for nothing else. *)
Theorem updateInnerBlocks_nullish (clientId : string) :
  isZero (optLength BlocksUndefined) = false
  ∧ isZero (optLength BlocksNull) = false
  ∧ updateInnerBlocks clientId BlocksUndefined
    = (undefined, [ReplaceInnerBlocks clientId BlocksUndefined true])
  ∧ updateInnerBlocks clientId BlocksNull
    = (undefined, [ReplaceInnerBlocks clientId BlocksNull true])
  ∧ ∀ blocks : JSBlocks,
      fst (updateInnerBlocks clientId blocks) = Some false
      ↔ blocks = BlocksArray [].
Proof.
  repeat split; try reflexivity.
  - destruct blocks as [| | [|b l]]; simpl; done.
  - intros ->. reflexivity.
Qed.

Lemma find_first_parent (before after : list Block) (b : Block) :
  Forall (fun x => BlockEditor.innerBlocks x = []) before →
  BlockEditor.innerBlocks b ≠ [] →
  List.find (fun b => negb (Nat.eqb (length (BlockEditor.innerBlocks b)) 0))
    (before ++ b :: after) = Some b.
Proof.
  intros Hbefore Hb. induction Hbefore as [|x before Hx _ IH]; simpl.
  - destruct (BlockEditor.innerBlocks b); done.
  - by rewrite Hx.
Qed.

Lemma find_no_parent (blocks : list Block) :
  Forall (fun x => BlockEditor.innerBlocks x = []) blocks →
  List.find (fun b => negb (Nat.eqb (length (BlockEditor.innerBlocks b)) 0))
    blocks = None.
Proof.
  intros Hall. induction Hall as [|x blocks Hx _ IH]; simpl; [done |].
  by rewrite Hx.
Qed.

(** C7. The derived [subMenuClientId] is the client id of the first inner
    block of the first child that has inner blocks of its own, and it is
    [undefined] when no child has any; [withSelect] derives it from the
    block's inner blocks in the store. *)
Theorem subMenuClientId_first_grandchild (innerBlocks : list Block) :
  (∀ (before after : list Block) (child first : Block) (others : list Block),
     innerBlocks = (before ++ child :: after)%list →
     Forall (fun b => BlockEditor.innerBlocks b = []) before →
     BlockEditor.innerBlocks child = first :: others →
     subMenuClientId innerBlocks = Some (BlockEditor.clientId first))
  ∧ (Forall (fun b => BlockEditor.innerBlocks b = []) innerBlocks →
     subMenuClientId innerBlocks = undefined)
  ∧ ∀ (select : Selectors) (clientId : string),
      getBlocks select clientId = innerBlocks →
      Select.subMenuClientId (withSelect select clientId)
      = subMenuClientId innerBlocks.
Proof.
  repeat split.
  - intros before after child first others -> Hbefore Hchild.
    unfold subMenuClientId.
    rewrite (find_first_parent before after child Hbefore);
      [| by rewrite Hchild].
    simpl. by rewrite Hchild.
  - intros Hall. unfold subMenuClientId. by rewrite (find_no_parent _ Hall).
  - intros select clientId <-. reflexivity.
Qed.

Lemma subMenuClientId_first_grandchild_witness :
  subMenuClientId Sample.menu = Some "sub-1"
  ∧ subMenuClientId [Sample.link "home" []] = undefined.
Proof.
  destruct (subMenuClientId_first_grandchild Sample.menu) as [Hfirst _].
  destruct (subMenuClientId_first_grandchild [Sample.link "home" []])
    as [_ [Hnone _]].
  split.
  - apply (Hfirst [Sample.link "home" []] [Sample.link "shop" [Sample.link "sub-3" []]]
             (Sample.link "about" [Sample.link "sub-1" []; Sample.link "sub-2" []])
             (Sample.link "sub-1" []) [Sample.link "sub-2" []]).
    + reflexivity.
    + repeat constructor.
    + reflexivity.
  - apply Hnone. repeat constructor.
Defined.

(** ** The component *)

Lemma strictEq_true (v : option string) (s : string) :
  strictEq v s = true ↔ v = Some s.
Proof.
  destruct v as [x|]; simpl; [| done].
  destruct (String.eqb_spec x s); split; congruence.
Qed.

(** C5. The allowed controls of the justification toolbar are left, center
    and right when [attributes.orientation] is ['vertical'], and those
    three and space-between for every other orientation, horizontal among
    them; a rendered toolbar carries that list and the current
    [itemsJustification], so with orientation ['vertical'] and
    justification ['center'] the menu view's toolbar has the options left,
    center, right and the value center. *)
Theorem justifyToolbar_allowedControls (OS : string) (props : Props) (s : State) :
  let attrs := attributes props in
  (orientation attrs = Some "vertical" →
     justifyAllowedControls attrs = [ "left"; "center"; "right" ])
  ∧ (orientation attrs ≠ Some "vertical" →
     justifyAllowedControls attrs
     = [ "left"; "center"; "right"; "space-between" ])
  ∧ (∀ toolbar : JustifyToolbarProps,
       justifyToolbarOf (Navigation OS props s) = Some toolbar →
       allowedControls toolbar = justifyAllowedControls attrs
       ∧ value toolbar = itemsJustification attrs)
  ∧ (orientation attrs = Some "vertical" →
     itemsJustification attrs = Some "center" →
     isPlaceholderShown s = false →
     hasItemJustificationControls props = true →
     justifyToolbarOf (Navigation OS props s)
     = Some {| value := Some "center";
               allowedControls := [ "left"; "center"; "right" ] |}).
Proof.
  intros attrs.
  assert (rendered_toolbar : ∀ toolbar : JustifyToolbarProps,
            justifyToolbarOf (Navigation OS props s) = Some toolbar →
            allowedControls toolbar = justifyAllowedControls attrs
            ∧ value toolbar = itemsJustification attrs).
  { intros toolbar. unfold Navigation.
    destruct (isPlaceholderShown s); simpl; [done |].
    destruct (hasItemJustificationControls props); [| done].
    by intros [= <-]. }
  split; [| split; [| split; [exact rendered_toolbar |]]].
  - intros Hv. unfold justifyAllowedControls. by rewrite Hv.
  - intros Hv. unfold justifyAllowedControls.
    destruct (strictEq (orientation attrs) "vertical") eqn:Heq; [| done].
    by apply strictEq_true in Heq.
  - intros Hv Hj Hshown Hflag. unfold Navigation.
    rewrite Hshown, Hflag. simpl. fold attrs.
    unfold justifyAllowedControls. by rewrite Hv, Hj.
Qed.

Lemma justifyToolbar_allowedControls_witness :
  justifyToolbarOf
    (Navigation "web" Sample.menuProps (mount Sample.menuProps))
  = Some {| value := Some "center";
            allowedControls := [ "left"; "center"; "right" ] |}
  ∧ justifyAllowedControls Sample.horizontal
    = [ "left"; "center"; "right"; "space-between" ].
Proof.
  split.
  - apply (justifyToolbar_allowedControls "web" Sample.menuProps
             (mount Sample.menuProps)); reflexivity.
  - apply (justifyToolbar_allowedControls "web" Sample.freshProps
             (mount Sample.freshProps)). simpl. discriminate.
Defined.

Lemma enableContrastChecking_web (OS : string) :
  enableContrastChecking OS = true ↔ OS = "web".
Proof. unfold enableContrastChecking. by destruct (String.eqb_spec OS "web"). Qed.

(** C6, as the claim has it: the two contrast checkers are on the page
    exactly when the platform is the web.  On the web, a block that still
    shows its placeholder renders none. *)
Lemma contrastCheckers_iff_web_fails :
  ¬ (∀ (OS : string) (props : Props) (s : State),
       length (contrastCheckersOf (Navigation OS props s)) = 2 ↔ OS = "web").
Proof.
  intros Hclaim.
  destruct (Hclaim "web" Sample.freshProps (mount Sample.freshProps))
    as [_ Hrendered].
  specialize (Hrendered eq_refl). vm_compute in Hrendered. discriminate.
Qed.

(** C6, amended. For every colour value, the two contrast checkers are
    rendered exactly when the platform is the web and the menu view, not
    the placeholder, is shown; they then show the detected colours.  On any
    other platform none is rendered, whatever the colours and the view, and
    the effect's run is empty: no style is read, no callback is invoked,
    the state stays as it is. *)
Theorem contrastCheckers_web_only (OS : string) (props : Props) (s : State) :
  (length (contrastCheckersOf (Navigation OS props s)) = 2
   ↔ OS = "web" ∧ isPlaceholderShown s = false)
  ∧ (OS = "web" → isPlaceholderShown s = false →
     contrastCheckersOf (Navigation OS props s)
     = [ {| checkedBackgroundColor := detectedBackgroundColor s;
            checkedTextColor := detectedColor s |};
         {| checkedBackgroundColor := detectedOverlayBackgroundColor s;
            checkedTextColor := detectedOverlayColor s |} ])
  ∧ (OS ≠ "web" →
     contrastCheckersOf (Navigation OS props s) = []
     ∧ ∀ document : Document,
         effect OS props document = (tt, [])
         ∧ runEffect OS props document s = s).
Proof.
  unfold Navigation, runEffect, effect.
  pose proof (enableContrastChecking_web OS) as Hweb.
  destruct (enableContrastChecking OS), (isPlaceholderShown s); simpl.
  - split; [| split].
    + split; [done | by intros [_ ?]].
    + done.
    + intros Hne. exfalso. apply Hne. by apply Hweb.
  - split; [| split].
    + split; [intros _; split; [by apply Hweb | done] | done].
    + done.
    + intros Hne. exfalso. apply Hne. by apply Hweb.
  - split; [| split].
    + split; [done | by intros [_ ?]].
    + done.
    + done.
  - split; [| split].
    + split; [done |]. intros [Hos _]. apply Hweb in Hos. done.
    + intros Hos. apply Hweb in Hos. done.
    + done.
Qed.

Lemma contrastCheckers_web_only_witness :
  length (contrastCheckersOf
            (Navigation "web" Sample.menuProps (mount Sample.menuProps))) = 2
  ∧ contrastCheckersOf
      (Navigation "native" Sample.menuProps (mount Sample.menuProps)) = []
  ∧ effect "native" Sample.menuProps Sample.page = (tt, []).
Proof.
  split; [| split].
  - apply (contrastCheckers_web_only "web" Sample.menuProps
             (mount Sample.menuProps)). split; reflexivity.
  - apply (contrastCheckers_web_only "native" Sample.menuProps
             (mount Sample.menuProps)). discriminate.
  - apply (contrastCheckers_web_only "native" Sample.menuProps
             (mount Sample.menuProps)). discriminate.
Defined.

(** On the web the effect fills the four detected colours; elsewhere it
    leaves the state alone. *)
Example runEffect_web :
  runEffect "web" Sample.menuProps Sample.page (mount Sample.menuProps)
  = {| isPlaceholderShown := false;
       isResponsiveMenuOpen := false;
       detectedBackgroundColor := Some "rgb(255, 255, 255)";
       detectedColor := Some "rgb(10, 20, 30)";
       detectedOverlayBackgroundColor := Some "rgb(200, 200, 200)";
       detectedOverlayColor := Some "rgb(1, 2, 3)" |}
  ∧ runEffect "native" Sample.menuProps Sample.page (mount Sample.menuProps)
    = mount Sample.menuProps.
Proof. split; reflexivity. Qed.

(** *** The placeholder flag *)

Lemma applySetter_placeholder (setter : StateSetter) (v : string) (s : State) :
  isPlaceholderShown (applySetter setter v s) = isPlaceholderShown s.
Proof. by destruct setter. Qed.

Lemma perform_placeholder (t : list (Effect StateSetter)) (s : State) :
  isPlaceholderShown (perform applySetter t s) = isPlaceholderShown s.
Proof.
  unfold perform. revert s.
  induction (invocations t) as [|[setter v] calls IH]; intros s; simpl; [done |].
  by rewrite IH, applySetter_placeholder.
Qed.

(** Each handler leaves the flag alone, except [onCreate], which clears it. *)
Lemma handle_placeholder (OS : string) (e : Event) (w : World) :
  isPlaceholderShown (state (handle OS e w))
  = isPlaceholderShown (state w) && negb (isCreation e).
Proof.
  destruct e; simpl; rewrite ?andb_true_r; try reflexivity.
  - apply perform_placeholder.
  - unfold onCreate.
    destruct (updateInnerBlocks (clientId (props w)) blocks) as [r calls].
    destruct selectNavigationBlock; simpl; by rewrite andb_false_r.
Qed.

Lemma run_placeholder (OS : string) (es : list Event) (w w' : World) :
  run OS es w = Some w' →
  isPlaceholderShown (state w')
  = isPlaceholderShown (state w) && negb (existsb isCreation es).
Proof.
  revert w. induction es as [|e es IH]; intros w; simpl.
  - intros [= <-]. by rewrite andb_true_r.
  - unfold fire. destruct (rendered OS w e); [| done].
    intros Hrun. rewrite (IH _ Hrun), handle_placeholder.
    rewrite negb_orb. by rewrite andb_assoc.
Qed.

(** A fresh block whose placeholder reports an empty list: the placeholder
    is gone, nothing was dispatched, and the menu view is what renders. *)
Example onCreate_empty_list :
  run "web" [OnCreate (BlocksArray []) false] (mounted Sample.freshProps)
  = Some {| props := Sample.freshProps;
            state := setIsPlaceholderShown false (mount Sample.freshProps);
            dispatched := [] |}
  ∧ isPlaceholderShown (mount Sample.freshProps) = true
  ∧ hasExistingNavItems Sample.freshProps = false.
Proof. repeat split. Qed.

(** The same block when the placeholder reports a menu, and asks for the
    block to be selected. *)
Example onCreate_menu :
  run "web" [OnCreate (BlocksArray Sample.menu) true] (mounted Sample.freshProps)
  = Some {| props := Sample.freshProps;
            state := setIsPlaceholderShown false (mount Sample.freshProps);
            dispatched :=
              [ ReplaceInnerBlocks "nav-1" (BlocksArray Sample.menu) true;
                SelectBlock "nav-1" ] |}.
Proof. reflexivity. Qed.

(** Once the menu view is shown, [onCreate] is no longer on the page. *)
Example onCreate_not_rendered :
  run "web" [OnCreate (BlocksArray Sample.menu) true] (mounted Sample.menuProps)
  = None.
Proof. reflexivity. Qed.

(** C2, as the claim has it: in every reachable state the placeholder is
    shown exactly when there were no items at mount and no creation event
    has supplied child content since.  A creation event that supplies the
    empty list hides the placeholder all the same, and no child is added:
    [updateInnerBlocks] dispatches nothing. *)
Lemma placeholder_iff_no_content_fails :
  ¬ (∀ (OS : string) (p : Props) (es : list Event) (w : World),
       run OS es (mounted p) = Some w →
       (isPlaceholderShown (state w) = true
        ↔ hasExistingNavItems p = false ∧ existsb suppliesContent es = false)).
Proof.
  intros Hclaim.
  destruct (Hclaim "web" Sample.freshProps [OnCreate (BlocksArray []) false]
              (handle "web" (OnCreate (BlocksArray []) false)
                 (mounted Sample.freshProps)) eq_refl) as [_ Hshown].
  specialize (Hshown (conj eq_refl eq_refl)). vm_compute in Hshown.
  discriminate.
Qed.

(** C2, amended. In every state the component reaches from its mount, the
    placeholder is shown exactly when there were no items at mount and the
    [onCreate] handler has not been called since, with whatever list,
    empty or not. *)
Theorem placeholder_iff_not_created (OS : string) (p : Props)
    (es : list Event) (w : World) :
  run OS es (mounted p) = Some w →
  (isPlaceholderShown (state w) = true
   ↔ hasExistingNavItems p = false ∧ existsb isCreation es = false).
Proof.
  intros Hrun. rewrite (run_placeholder OS es _ _ Hrun). simpl.
  rewrite andb_true_iff, !negb_true_iff. done.
Qed.

Lemma placeholder_iff_not_created_witness :
  run "web"
    [RunEffect Sample.page; Rerender Sample.menuProps; RunEffect Sample.page]
    (mounted Sample.freshProps)
  = Some (handle "web" (RunEffect Sample.page)
            (handle "web" (Rerender Sample.menuProps)
               (handle "web" (RunEffect Sample.page)
                  (mounted Sample.freshProps))))
  ∧ (isPlaceholderShown
       (state (handle "web" (RunEffect Sample.page)
                 (handle "web" (Rerender Sample.menuProps)
                    (handle "web" (RunEffect Sample.page)
                       (mounted Sample.freshProps))))) = true
     ↔ hasExistingNavItems Sample.freshProps = false
       ∧ existsb isCreation
           [RunEffect Sample.page; Rerender Sample.menuProps;
            RunEffect Sample.page] = false).
Proof.
  split; [reflexivity |].
  apply (placeholder_iff_not_created "web" Sample.freshProps
           [RunEffect Sample.page; Rerender Sample.menuProps;
            RunEffect Sample.page]).
  reflexivity.
Defined.

(** C4. Once [isPlaceholderShown] is false it stays false: no handler of
    the component, in whatever view it is called, sets it back to true,
    and so it is false after every sequence of events that follows. *)
Theorem placeholder_never_returns (OS : string) (w : World) :
  isPlaceholderShown (state w) = false →
  (∀ e : Event, isPlaceholderShown (state (handle OS e w)) = false)
  ∧ (∀ (es : list Event) (w' : World),
       run OS es w = Some w' → isPlaceholderShown (state w') = false).
Proof.
  intros Hhidden. split.
  - intros e. by rewrite handle_placeholder, Hhidden.
  - intros es w' Hrun. by rewrite (run_placeholder OS es _ _ Hrun), Hhidden.
Qed.

Lemma placeholder_never_returns_witness :
  isPlaceholderShown (state (mounted Sample.menuProps)) = false
  ∧ ∃ w' : World,
      run "web" Sample.session (mounted Sample.menuProps) = Some w'
      ∧ isPlaceholderShown (state w') = false.
Proof.
  split; [reflexivity |].
  eexists. split; [reflexivity |].
  apply (proj2 (placeholder_never_returns "web" (mounted Sample.menuProps)
                  eq_refl) Sample.session).
  reflexivity.
Defined.

(** ** Further properties of the colour detector *)

Lemma string_length_append (s1 s2 : string) :
  String.length (s1 ++ s2) = String.length s1 + String.length s2.
Proof.
  induction s1 as [|a s1 IH]; [reflexivity |].
  change (String a s1 ++ s2) with (String a (s1 ++ s2)).
  simpl. by rewrite IH.
Qed.

(** X1. [getBlockDOMNode] finds an element under the id ["block-"] followed
    by the client id: an element registered for a block is found for that
    block, registering one block's element does not change what is found
    for another, and an element whose id is the bare client id is not
    found. *)
Theorem getBlockDOMNode_registered (document : Document) (clientId : string)
    (node : Node) :
  getBlockDOMNode clientId (<[ "block-" ++ clientId := node ]> document)
  = Some node
  ∧ (∀ other : string,
       other ≠ clientId →
       getBlockDOMNode other (<[ "block-" ++ clientId := node ]> document)
       = getBlockDOMNode other document)
  ∧ getBlockDOMNode clientId {[ clientId := node ]} = None.
Proof.
  unfold getBlockDOMNode, getElementById. split; [| split].
  - apply lookup_insert_eq.
  - intros other Hne. apply lookup_insert_ne.
    simpl. intros [= Heq]. by apply Hne.
  - apply lookup_singleton_ne. intros Heq.
    apply (f_equal String.length) in Heq.
    rewrite string_length_append in Heq. simpl in Heq. lia.
Qed.

Lemma getBlockDOMNode_registered_witness :
  getBlockDOMNode "sub-1" Sample.page = Some Sample.subNode
  ∧ getBlockDOMNode "nav-1" Sample.page
    = getBlockDOMNode "nav-1" {[ "block-nav-1" := Sample.navNode ]}.
Proof.
  split.
  - apply (getBlockDOMNode_registered
             {[ "block-nav-1" := Sample.navNode ]} "sub-1" Sample.subNode).
  - apply (getBlockDOMNode_registered
             {[ "block-nav-1" := Sample.navNode ]} "sub-1" Sample.subNode).
    discriminate.
Defined.

Lemma opaque_false (node : Node) : opaque node = false ↔ transparent node.
Proof.
  unfold opaque, transparent. rewrite negb_false_iff.
  by destruct (String.eqb_spec (Dom.backgroundColor (computedStyle node))
                 TRANSPARENT).
Qed.

Lemma nearestBackground_child (t : Z) (s : CSSStyleDeclaration) (p : Node) :
  nearestBackground (mkNode t s (Some p))
  = if String.eqb (Dom.backgroundColor s) TRANSPARENT then
      if Z.eqb (nodeType p) ELEMENT_NODE then nearestBackground p
      else TRANSPARENT
    else Dom.backgroundColor s.
Proof.
  unfold nearestBackground, opaque. simpl.
  destruct (String.eqb (Dom.backgroundColor s) TRANSPARENT); simpl; [| done].
  by destruct (Z.eqb (nodeType p) ELEMENT_NODE).
Qed.

(** The value the loop ends on is [nearestBackground]. *)
Lemma walked_nearestBackground (node : Node) :
  lastBackground node (walked node (Dom.backgroundColor (computedStyle node)))
  = nearestBackground node.
Proof.
  unfold lastBackground.
  induction node as [t s | t s p IH] using Node_chain_ind.
  - unfold nearestBackground, opaque. simpl.
    destruct (String.eqb_spec (Dom.backgroundColor s) TRANSPARENT); simpl; done.
  - rewrite nearestBackground_child. simpl.
    destruct (String.eqb_spec (Dom.backgroundColor s) TRANSPARENT) as [Heq|Hne];
      simpl; [| done].
    destruct (Z.eqb (nodeType p) ELEMENT_NODE); simpl; [| done].
    rewrite <- IH. rewrite last_cons.
    by destruct (last (walked p (Dom.backgroundColor (computedStyle p)))).
Qed.

(** X2. The background [detectColors] reports for a node on the page is the
    background of the nearest node, among the node itself and its element
    ancestors, whose background is not the string [rgba(0, 0, 0, 0)], and
    [rgba(0, 0, 0, 0)] when all of them have that background. *)
Theorem detectColors_nearest_background {Callback : Type} (document : Document)
    (clientId : string) (setColor setBackground : Callback) (node : Node) :
  getBlockDOMNode clientId document = Some node →
  invocations (snd (detectColors document clientId setColor setBackground))
  = [ (setColor, Dom.color (computedStyle node));
      (setBackground,
       match List.find opaque (node :: elementAncestors node) with
       | Some n => Dom.backgroundColor (computedStyle n)
       | None => "rgba(0, 0, 0, 0)"
       end) ].
Proof.
  intros Hnode. rewrite (detectColors_invocations _ _ _ _ _ Hnode).
  rewrite walked_nearestBackground. reflexivity.
Qed.

Lemma detectColors_nearest_background_witness :
  getBlockDOMNode "nav-1" Sample.page = Some Sample.navNode
  ∧ List.find opaque (Sample.navNode :: elementAncestors Sample.navNode)
    = Some Sample.body
  ∧ invocations
      (snd (detectColors Sample.page "nav-1"
              SetDetectedColor SetDetectedBackgroundColor))
    = [ (SetDetectedColor, "rgb(10, 20, 30)");
        (SetDetectedBackgroundColor, "rgb(255, 255, 255)") ].
Proof.
  split; [reflexivity |]. split; [reflexivity |].
  apply (detectColors_nearest_background Sample.page "nav-1"
           SetDetectedColor SetDetectedBackgroundColor Sample.navNode).
  reflexivity.
Defined.

(** X3. A run of [detectColors] reads at most two styles more than the node
    has element ancestors, and none at all when the node is not on the
    page. *)
Theorem detectColors_reads_bounded {Callback : Type} (document : Document)
    (clientId : string) (setColor setBackground : Callback) :
  match getBlockDOMNode clientId document with
  | Some node =>
      (length (styleReads
                 (snd (detectColors document clientId setColor setBackground)))
       ≤ 2 + length (elementAncestors node))%nat
  | None =>
      styleReads (snd (detectColors document clientId setColor setBackground))
      = []
  end.
Proof.
  destruct (getBlockDOMNode clientId document) as [node|] eqn:Hnode.
  - rewrite (detectColors_styleReads _ _ _ _ _ Hnode).
    rewrite length_app. simpl.
    pose proof (prefix_length _ _
                  (walked_prefix node
                     (Dom.backgroundColor (computedStyle node)))).
    lia.
  - unfold detectColors. by rewrite Hnode.
Qed.

Lemma walked_elements (node : Node) (background : string) :
  Forall (fun x => nodeType x = ELEMENT_NODE) (walked node background).
Proof.
  revert background. induction node as [t s | t s p IH] using Node_chain_ind;
    intros background; simpl.
  - by destruct (String.eqb background TRANSPARENT).
  - destruct (String.eqb background TRANSPARENT); [| done].
    destruct (Z.eqb_spec (nodeType p) ELEMENT_NODE); [| done].
    by constructor.
Qed.

(** X4. [detectColors] never reads the style of a parent that is not an
    element: every node it reads, other than the node it starts from, is
    an element node.  So when the starting node has the background
    [rgba(0, 0, 0, 0)] and its parent is missing or is not an element, as
    for the root element, whose parent is the document, only the node's
    own style is read and [rgba(0, 0, 0, 0)] is reported. *)
Theorem detectColors_stops_below_non_element {Callback : Type}
    (document : Document) (clientId : string)
    (setColor setBackground : Callback) (node : Node) :
  getBlockDOMNode clientId document = Some node →
  let run := snd (detectColors document clientId setColor setBackground) in
  (∀ x : Node, x ∈ styleReads run → x = node ∨ nodeType x = ELEMENT_NODE)
  ∧ (transparent node →
     (match parentNode node with
      | Some p => nodeType p ≠ ELEMENT_NODE
      | None => True
      end) →
     styleReads run = [node; node]
     ∧ invocations run
       = [ (setColor, Dom.color (computedStyle node));
           (setBackground, "rgba(0, 0, 0, 0)") ]).
Proof.
  intros Hnode run. unfold run.
  rewrite (detectColors_styleReads _ _ _ _ _ Hnode).
  rewrite (detectColors_invocations _ _ _ _ _ Hnode).
  split.
  - intros x Hin. apply elem_of_app in Hin as [Hin | Hin].
    + left. apply elem_of_cons in Hin as [-> | Hin]; [done |].
      apply elem_of_cons in Hin as [-> | Hin]; [done |].
      by apply elem_of_nil in Hin.
    + right.
      pose proof (walked_elements node
                    (Dom.backgroundColor (computedStyle node))) as Hall.
      rewrite Forall_forall in Hall. by apply Hall.
  - intros Htransparent Hparent.
    assert (Hnil : walked node (Dom.backgroundColor (computedStyle node)) = []).
    { destruct node as [t s [p|]]; simpl in *.
      - destruct (String.eqb _ TRANSPARENT); [| done].
        destruct (Z.eqb_spec (nodeType p) ELEMENT_NODE); done.
      - by destruct (String.eqb _ TRANSPARENT). }
    rewrite Hnil. unfold lastBackground. simpl. by rewrite Htransparent.
Qed.

Lemma detectColors_stops_below_non_element_witness :
  getBlockDOMNode "root" Sample.rootPage = Some Sample.html
  ∧ parentNode Sample.html = Some Sample.documentNode
  ∧ styleReads
      (snd (detectColors Sample.rootPage "root"
              SetDetectedColor SetDetectedBackgroundColor))
    = [ Sample.html; Sample.html ]
  ∧ invocations
      (snd (detectColors Sample.rootPage "root"
              SetDetectedColor SetDetectedBackgroundColor))
    = [ (SetDetectedColor, "rgb(0, 0, 0)");
        (SetDetectedBackgroundColor, "rgba(0, 0, 0, 0)") ].
Proof.
  split; [reflexivity |]. split; [reflexivity |].
  apply (detectColors_stops_below_non_element Sample.rootPage "root"
           SetDetectedColor SetDetectedBackgroundColor Sample.html);
    [reflexivity | reflexivity | discriminate].
Defined.

(** ** Further properties of the effect *)

Lemma perform_app {Callback S : Type} (apply : Callback → string → S → S)
    (t1 t2 : list (Effect Callback)) (s : S) :
  perform apply (t1 ++ t2) s = perform apply t2 (perform apply t1 s).
Proof. unfold perform. by rewrite invocations_app, foldl_app. Qed.

Lemma perform_detectColors (document : Document) (clientId : string)
    (setColor setBackground : StateSetter) (s : State) :
  perform applySetter
    (snd (detectColors document clientId setColor setBackground)) s
  = detected document clientId setColor setBackground s.
Proof.
  unfold detected, perform.
  destruct (getBlockDOMNode clientId document) as [node|] eqn:Hnode.
  - rewrite (detectColors_invocations _ _ _ _ _ Hnode).
    by rewrite walked_nearestBackground.
  - unfold detectColors. by rewrite Hnode.
Qed.

(** The state after the effect, pass by pass. *)
Lemma runEffect_passes (OS : string) (props : Props) (document : Document)
    (s : State) :
  runEffect OS props document s
  = if enableContrastChecking OS then
      let s1 := detected document (clientId props)
                  SetDetectedColor SetDetectedBackgroundColor s in
      match subMenuClientId_ props with
      | Some sub =>
          if String.eqb sub "" then s1
          else detected document sub
                 SetDetectedOverlayColor SetDetectedOverlayBackgroundColor s1
      | None => s1
      end
    else s.
Proof.
  unfold runEffect, effect.
  destruct (enableContrastChecking OS); simpl; [| done].
  rewrite <- (perform_detectColors document (clientId props)).
  destruct (detectColors document (clientId props) _ _) as [[] t1]. simpl.
  destruct (subMenuClientId_ props) as [sub|]; simpl.
  - destruct (String.eqb sub ""); simpl.
    + by rewrite app_nil_r.
    + rewrite <- (perform_detectColors document sub).
      destruct (detectColors document sub _ _) as [[] t2]. simpl.
      apply perform_app.
  - by rewrite app_nil_r.
Qed.

(** X5. On the web, when the block's node is on the page the effect sets
    [detectedColor] to the node's computed colour and
    [detectedBackgroundColor] to the background of the nearest node, among
    the node and its element ancestors, whose background is not the string
    [rgba(0, 0, 0, 0)], or to [rgba(0, 0, 0, 0)] when there is none; when
    the node is not on the page both stay as they were; the pass over the
    submenu changes neither. *)
Theorem runEffect_main_colors (props : Props) (document : Document) (s : State) :
  let s' := runEffect "web" props document s in
  match getBlockDOMNode (clientId props) document with
  | Some node =>
      detectedColor s' = Some (Dom.color (computedStyle node))
      ∧ detectedBackgroundColor s' = Some (nearestBackground node)
  | None =>
      detectedColor s' = detectedColor s
      ∧ detectedBackgroundColor s' = detectedBackgroundColor s
  end.
Proof.
  intros s'. unfold s'. rewrite runEffect_passes. simpl. unfold detected.
  destruct (getBlockDOMNode (clientId props) document) as [node|];
    destruct (subMenuClientId_ props) as [sub|];
    try destruct (String.eqb sub "");
    try destruct (getBlockDOMNode sub document) as [subnode|];
    by split.
Qed.

(** X6. On the web, the effect sets [detectedOverlayColor] and
    [detectedOverlayBackgroundColor] from the submenu's node when
    [subMenuClientId] is a non-empty string and that node is on the page;
    when [subMenuClientId] is undefined or empty, or the node is missing,
    both stay as they were, whether or not the block's own node is found. *)
Theorem runEffect_overlay_colors (props : Props) (document : Document)
    (s : State) :
  let s' := runEffect "web" props document s in
  let unchanged :=
    detectedOverlayColor s' = detectedOverlayColor s
    ∧ detectedOverlayBackgroundColor s' = detectedOverlayBackgroundColor s in
  match subMenuClientId_ props with
  | Some sub =>
      if String.eqb sub "" then unchanged
      else
        match getBlockDOMNode sub document with
        | Some node =>
            detectedOverlayColor s' = Some (Dom.color (computedStyle node))
            ∧ detectedOverlayBackgroundColor s' = Some (nearestBackground node)
        | None => unchanged
        end
  | None => unchanged
  end.
Proof.
  intros s' unchanged. unfold unchanged, s'. rewrite runEffect_passes. simpl.
  unfold detected.
  destruct (getBlockDOMNode (clientId props) document) as [node|];
    destruct (subMenuClientId_ props) as [sub|];
    try destruct (String.eqb sub "");
    try destruct (getBlockDOMNode sub document) as [subnode|];
    by split.
Qed.

(** X7. Running the effect again on the same props and the same page
    changes nothing more: the effect is idempotent, on every platform. *)
Theorem runEffect_idempotent (OS : string) (props : Props)
    (document : Document) (s : State) :
  runEffect OS props document (runEffect OS props document s)
  = runEffect OS props document s.
Proof.
  rewrite !runEffect_passes.
  destruct (enableContrastChecking OS); [| done]. simpl. unfold detected.
  destruct (getBlockDOMNode (clientId props) document) as [node|];
    destruct (subMenuClientId_ props) as [sub|];
    try destruct (String.eqb sub "");
    try destruct (getBlockDOMNode sub document) as [subnode|];
    reflexivity.
Qed.

(** X8. The effect touches nothing but the four detected colours: the
    placeholder flag and the responsive-menu flag are what they were, so
    the same view is shown, and the event that runs it keeps the props and
    makes no call into the host. *)
Theorem runEffect_frame (OS : string) (document : Document) (w : World) :
  let w' := handle OS (RunEffect document) w in
  isPlaceholderShown (state w') = isPlaceholderShown (state w)
  ∧ isResponsiveMenuOpen (state w') = isResponsiveMenuOpen (state w)
  ∧ props w' = props w
  ∧ dispatched w' = dispatched w.
Proof.
  simpl. rewrite runEffect_passes.
  destruct (enableContrastChecking OS); [| done]. simpl. unfold detected.
  destruct (getBlockDOMNode (clientId (props w)) document) as [node|];
    destruct (subMenuClientId_ (props w)) as [sub|];
    try destruct (String.eqb sub "");
    try destruct (getBlockDOMNode sub document) as [subnode|];
    done.
Qed.

(** X9. On the web, once the effect has run on a page that holds the
    block's node and the submenu's node, the menu view's two contrast
    checkers show exactly what was detected: as text colour the node's
    computed colour, and as background that of the nearest node, among
    the node and its element ancestors, whose background is not the string
    [rgba(0, 0, 0, 0)], or [rgba(0, 0, 0, 0)] when there is none; the
    first checker for the block, the second for the submenu. *)
Theorem contrastCheckers_show_detected (props : Props) (document : Document)
    (s : State) (sub : string) (node subnode : Node) :
  isPlaceholderShown s = false →
  getBlockDOMNode (clientId props) document = Some node →
  subMenuClientId_ props = Some sub →
  sub ≠ "" →
  getBlockDOMNode sub document = Some subnode →
  contrastCheckersOf
    (Navigation "web" props (runEffect "web" props document s))
  = [ {| checkedBackgroundColor := Some (nearestBackground node);
         checkedTextColor := Some (Dom.color (computedStyle node)) |};
      {| checkedBackgroundColor := Some (nearestBackground subnode);
         checkedTextColor := Some (Dom.color (computedStyle subnode)) |} ].
Proof.
  intros Hshown Hnode Hsub Hne Hsubnode.
  rewrite runEffect_passes. simpl. unfold detected.
  rewrite Hnode, Hsub.
  destruct (String.eqb_spec sub ""); [done |].
  rewrite Hsubnode. unfold Navigation. simpl. by rewrite Hshown.
Qed.

Lemma contrastCheckers_show_detected_witness :
  contrastCheckersOf
    (Navigation "web" Sample.menuProps
       (runEffect "web" Sample.menuProps Sample.page (mount Sample.menuProps)))
  = [ {| checkedBackgroundColor := Some "rgb(255, 255, 255)";
         checkedTextColor := Some "rgb(10, 20, 30)" |};
      {| checkedBackgroundColor := Some "rgb(200, 200, 200)";
         checkedTextColor := Some "rgb(1, 2, 3)" |} ].
Proof.
  apply (contrastCheckers_show_detected Sample.menuProps Sample.page
           (mount Sample.menuProps) "sub-1" Sample.navNode Sample.subNode);
    [reflexivity | reflexivity | reflexivity | discriminate | reflexivity].
Defined.

(** ** Further properties of the composition wrapper *)

(** X10. The return value of [updateInnerBlocks] tells whether anything was
    dispatched: it is [false] exactly when no call was made, it is never
    [true], and a call that is made is the single
    [replaceInnerBlocks( clientId, blocks, true )]. *)
Theorem updateInnerBlocks_return (clientId : string) (blocks : JSBlocks) :
  let r := updateInnerBlocks clientId blocks in
  (fst r = Some false ↔ snd r = [])
  ∧ fst r ≠ Some true
  ∧ (snd r = [] ∨ snd r = [ReplaceInnerBlocks clientId blocks true])
  ∧ Forall wellFormedCall (snd r).
Proof.
  unfold updateInnerBlocks.
  destruct blocks as [| | [|b l]]; simpl; repeat split; try done;
    try (by left); try (by right); by repeat constructor.
Qed.

(** X11. A block composed from the store shows the placeholder at mount
    exactly when the store holds no inner blocks for it, whatever its
    attributes, selection and colours. *)
Theorem mount_placeholder_iff_no_blocks (OS : string) (select : Selectors)
    (clientId : string) (attributes : Attributes) (isSelected : bool)
    (className : option string)
    (backgroundColor textColor overlayBackgroundColor overlayTextColor : ColorSlot) :
  let p := composeProps select clientId attributes isSelected className
             backgroundColor textColor overlayBackgroundColor overlayTextColor in
  (isPlaceholderShown (mount p) = true ↔ getBlocks select clientId = [])
  ∧ (Navigation OS p (mount p) = PlaceholderView
     ↔ getBlocks select clientId = []).
Proof.
  simpl. unfold Navigation. simpl.
  destruct (getBlocks select clientId) as [|b l]; simpl; split; split; done.
Qed.

(** X12. When [withSelect] derives a [subMenuClientId], the block has items,
    so it does not mount with the placeholder, and the id is that of the
    first inner block of one of the block's children. *)
Theorem subMenuClientId_some (select : Selectors) (clientId sub : string) :
  Select.subMenuClientId (withSelect select clientId) = Some sub →
  Select.hasExistingNavItems (withSelect select clientId) = true
  ∧ ∃ child first : Block,
      child ∈ getBlocks select clientId
      ∧ BlockEditor.innerBlocks child !! 0%nat = Some first
      ∧ BlockEditor.clientId first = sub.
Proof.
  simpl. unfold subMenuClientId.
  destruct (List.find _ (getBlocks select clientId)) as [child|] eqn:Hfind;
    simpl; [| done].
  destruct (BlockEditor.innerBlocks child !! 0%nat) as [first|] eqn:Hfirst;
    simpl; [| done].
  intros [= <-]. apply List.find_some in Hfind as [Hin _]. split.
  - destruct (getBlocks select clientId); [by destruct Hin | done].
  - exists child, first. split; [by apply list_elem_of_In | done].
Qed.

Lemma subMenuClientId_some_witness :
  Select.subMenuClientId (withSelect (Sample.storeWith Sample.menu) "nav-1")
  = Some "sub-1"
  ∧ Select.hasExistingNavItems
      (withSelect (Sample.storeWith Sample.menu) "nav-1") = true.
Proof.
  split; [reflexivity |].
  apply (subMenuClientId_some (Sample.storeWith Sample.menu) "nav-1" "sub-1").
  reflexivity.
Defined.

(** ** Further properties of the component *)

Lemma orElse_horizontal_vertical (o : option string) :
  orElse o "horizontal" = "vertical" ↔ o = Some "vertical".
Proof.
  destruct o as [x|]; simpl; [| done].
  destruct (String.eqb_spec x ""); subst; split; congruence.
Qed.

(** X13. The orientation handed to the inner blocks and the justification
    toolbar agree: the inner blocks are laid out vertically exactly when
    the allowed controls leave out space-between, and an undefined or
    empty orientation attribute lays them out horizontally. *)
Theorem orientation_agrees (OS : string) (props : Props) (s : State)
    (settings : InnerBlocksSettings) :
  innerBlocksSettingsOf (Navigation OS props s) = Some settings →
  (innerOrientation settings = "vertical"
   ↔ justifyAllowedControls (attributes props) = [ "left"; "center"; "right" ])
  ∧ (orientation (attributes props) = undefined
     ∨ orientation (attributes props) = Some ""
     → innerOrientation settings = "horizontal").
Proof.
  unfold Navigation. destruct (isPlaceholderShown s); simpl; [done |].
  intros [= <-]. simpl. rewrite orElse_horizontal_vertical.
  unfold justifyAllowedControls. split.
  - pose proof (strictEq_true (orientation (attributes props)) "vertical") as H.
    destruct (strictEq (orientation (attributes props)) "vertical").
    + split; [done |]. intros _. by apply H.
    + split; [| done]. intros Hv. apply H in Hv. done.
  - intros [-> | ->]; reflexivity.
Qed.

Lemma orientation_agrees_witness :
  ∃ settings : InnerBlocksSettings,
    innerBlocksSettingsOf
      (Navigation "web" Sample.menuProps (mount Sample.menuProps))
    = Some settings
    ∧ (innerOrientation settings = "vertical"
       ↔ justifyAllowedControls (attributes Sample.menuProps)
         = [ "left"; "center"; "right" ]).
Proof.
  eexists. split; [reflexivity |].
  eapply (orientation_agrees "web" Sample.menuProps (mount Sample.menuProps)).
  reflexivity.
Defined.

(** X14. In the menu view the colour panel lists four settings, for text,
    background, overlay text and overlay background in that order, one per
    colour slot, and each shows the value of the very slot its [onChange]
    sets. *)
Theorem colorSettings_wired (OS : string) (props : Props) (s : State) :
  isPlaceholderShown s = false →
  map settingOnChange (colorSettingsOf (Navigation OS props s))
  = [ TextColor; BackgroundColor; OverlayTextColor; OverlayBackgroundColor ]
  ∧ ∀ setting : ColorSetting,
      setting ∈ colorSettingsOf (Navigation OS props s) →
      settingValue setting = color (slotOf props (settingOnChange setting)).
Proof.
  intros Hshown. unfold Navigation. rewrite Hshown. simpl.
  split; [done |].
  intros setting Hin. repeat (apply elem_of_cons in Hin as [-> | Hin]; [done |]).
  by apply elem_of_nil in Hin.
Qed.

Lemma colorSettings_wired_witness :
  map settingOnChange
    (colorSettingsOf
       (Navigation "web" Sample.menuProps (mount Sample.menuProps)))
  = [ TextColor; BackgroundColor; OverlayTextColor; OverlayBackgroundColor ].
Proof.
  apply (colorSettings_wired "web" Sample.menuProps (mount Sample.menuProps)).
  reflexivity.
Defined.

Lemma updateInnerBlocks_calls (clientId : string) (blocks : JSBlocks) :
  Forall wellFormedCall (snd (updateInnerBlocks clientId blocks))
  ∧ length (List.filter isReplace (snd (updateInnerBlocks clientId blocks)))
    = if isZero (optLength blocks) then 0%nat else 1%nat.
Proof.
  unfold updateInnerBlocks.
  destruct blocks as [| | [|b l]]; simpl; split;
    try reflexivity; by repeat constructor.
Qed.

(** What one handler call adds to the calls made into the host. *)
Lemma handle_calls (OS : string) (e : Event) (w : World) :
  (Forall wellFormedCall (dispatched w) →
   Forall wellFormedCall (dispatched (handle OS e w)))
  ∧ length (List.filter isReplace (dispatched (handle OS e w)))
    = (length (List.filter isReplace (dispatched w))
       + if passesGuard e then 1 else 0)%nat.
Proof.
  destruct e; simpl;
    try (split; [done | lia]);
    try (split; [intros Hwf; apply Forall_app; split;
                   [done | by repeat constructor]
                | rewrite List.filter_app, length_app; simpl; lia]).
  unfold onCreate.
  destruct (updateInnerBlocks_calls (clientId (props w)) blocks)
    as [Hcalls Hcount].
  destruct (updateInnerBlocks (clientId (props w)) blocks) as [r calls].
  simpl in Hcalls, Hcount.
  destruct selectNavigationBlock; simpl; split.
  - intros Hwf. apply Forall_app. split; [done |]. apply Forall_app.
    split; [done |]. by repeat constructor.
  - rewrite !List.filter_app, !length_app, Hcount. simpl.
    destruct (isZero (optLength blocks)); simpl; lia.
  - intros Hwf. by apply Forall_app.
  - rewrite List.filter_app, length_app, Hcount.
    by destruct (isZero (optLength blocks)).
Qed.

(** X15. [onCreate] has no guard of its own against being called again:
    over any sequence of handler calls, in whatever view they are made,
    the number of [replaceInnerBlocks] calls dispatched is the number of
    [onCreate] calls whose argument is not the empty list. *)
Theorem replaceInnerBlocks_count (OS : string) (es : list Event) (w : World) :
  length (List.filter isReplace (dispatched (handleAll OS es w)))
  = (length (List.filter isReplace (dispatched w))
     + length (List.filter passesGuard es))%nat.
Proof.
  unfold handleAll. revert w. induction es as [|e es IH]; intros w; simpl.
  - lia.
  - rewrite IH. destruct (handle_calls OS e w) as [_ ->].
    destruct (passesGuard e); simpl; lia.
Qed.

(** The placeholder's handler called twice before the next render: both
    calls dispatch. *)
Example onCreate_twice :
  dispatched
    (handleAll "web"
       [ OnCreate (BlocksArray Sample.menu) false;
         OnCreate (BlocksArray Sample.menu) false ]
       (mounted Sample.freshProps))
  = [ ReplaceInnerBlocks "nav-1" (BlocksArray Sample.menu) true;
      ReplaceInnerBlocks "nav-1" (BlocksArray Sample.menu) true ].
Proof. reflexivity. Qed.

(** X16. Whatever handlers are called on a component after its mount, and
    in whatever order, every [replaceInnerBlocks] it dispatches passes
    something other than the empty list and asks for the selection to be
    updated. *)
Theorem replaceInnerBlocks_wellFormed (OS : string) (p : Props)
    (es : list Event) (rootClientId : string) (blocks : JSBlocks)
    (updateSelection : bool) :
  ReplaceInnerBlocks rootClientId blocks updateSelection
    ∈ dispatched (handleAll OS es (mounted p)) →
  blocks ≠ BlocksArray [] ∧ updateSelection = true.
Proof.
  assert (Hall : ∀ w, Forall wellFormedCall (dispatched w) →
                      Forall wellFormedCall (dispatched (handleAll OS es w))).
  { unfold handleAll. induction es as [|e es IH]; intros w Hwf; simpl; [done |].
    apply IH. by apply (handle_calls OS e w). }
  intros Hin. specialize (Hall (mounted p) (List.Forall_nil _)).
  rewrite Forall_forall in Hall. exact (Hall _ Hin).
Qed.

Lemma replaceInnerBlocks_wellFormed_witness :
  ReplaceInnerBlocks "nav-1" (BlocksArray Sample.menu) true
    ∈ dispatched
        (handleAll "web"
           [ OnCreate (BlocksArray []) false;
             OnCreate (BlocksArray Sample.menu) true;
             JustifyChange (Some "left") ]
           (mounted Sample.freshProps))
  ∧ BlocksArray Sample.menu ≠ BlocksArray [].
Proof.
  assert (Hin : ReplaceInnerBlocks "nav-1" (BlocksArray Sample.menu) true
                ∈ dispatched
                    (handleAll "web"
                       [ OnCreate (BlocksArray []) false;
                         OnCreate (BlocksArray Sample.menu) true;
                         JustifyChange (Some "left") ]
                       (mounted Sample.freshProps))).
  { apply elem_of_cons. left. reflexivity. }
  split; [exact Hin |].
  apply (replaceInnerBlocks_wellFormed "web" Sample.freshProps _ "nav-1"
           (BlocksArray Sample.menu) true Hin).
Defined.

(** X17. The toolbar and inspector handlers are controlled: a justification
    change, either toggle or a colour change makes exactly one call to the
    attribute setter or a colour setter and leaves props and local state
    alone, so the view stays what it was until the host renders again. *)
Theorem setting_handlers_controlled (OS : string) (e : Event) (w : World) :
  isSetting e = true →
  let w' := handle OS e w in
  props w' = props w
  ∧ state w' = state w
  ∧ Navigation OS (props w') (state w') = Navigation OS (props w) (state w)
  ∧ ∃ call : Action,
      dispatched w' = (dispatched w ++ [call])%list
      ∧ match call with
        | SetAttributes _ | SetColor _ _ => True
        | ReplaceInnerBlocks _ _ _ | SelectBlock _ => False
        end.
Proof.
  destruct e; try discriminate; intros _; simpl;
    repeat split; eexists; split; done.
Qed.

Lemma setting_handlers_controlled_witness :
  state (handle "web" (ToggleResponsive true) (mounted Sample.menuProps))
  = state (mounted Sample.menuProps).
Proof.
  apply (setting_handlers_controlled "web" (ToggleResponsive true)
           (mounted Sample.menuProps)).
  reflexivity.
Defined.
